(** * Gerador de Artigos (app.py): a shallow embedding and its properties

    The development follows [app.py] top to bottom: Python strings and
    the two standard-library string functions the program relies on
    ([str.strip], [html.escape]), then [search_web] under its retry
    decorator, [validate_input], [process_research] under its cache
    decorator, and the submit branch of [main] with its streaming loop. *)

From stdpp Require Import gmap list strings pretty.

Local Open Scope N_scope.
Local Open Scope list_scope.

(** ** Python values *)

Module Py.

(** A Python [str] is a sequence of Unicode code points; [len] counts code
    points, which is what [validate_input] compares against its bounds. *)
Abbreviation str := (list N).

(** Source literals are written in UTF-8, as in [app.py]; [lit] decodes one
    into its code points. *)
Fixpoint utf8_decode (bs : list N) : str :=
  match bs with
  | [] => []
  | b0 :: r0 =>
    if b0 <? 0x80 then b0 :: utf8_decode r0
    else
      match r0 with
      | [] => []
      | b1 :: r1 =>
        if b0 <? 0xE0 then (b0 mod 0x20 * 0x40 + b1 mod 0x40) :: utf8_decode r1
        else
          match r1 with
          | [] => []
          | b2 :: r2 =>
            if b0 <? 0xF0
            then (b0 mod 0x10 * 0x1000 + b1 mod 0x40 * 0x40 + b2 mod 0x40)
                   :: utf8_decode r2
            else
              match r2 with
              | [] => []
              | b3 :: r3 =>
                (b0 mod 0x08 * 0x40000 + b1 mod 0x40 * 0x1000
                 + b2 mod 0x40 * 0x40 + b3 mod 0x40) :: utf8_decode r3
              end
          end
      end
  end.

Definition lit (s : string) : str :=
  utf8_decode (map Ascii.N_of_ascii (String.list_ascii_of_string s)).
Arguments lit : simpl never.

(** [bool(s)] for a string: the empty string is falsy. *)
Definition truthy (s : str) : bool :=
  match s with [] => false | _ => true end.

(** [str.isspace] on one code point (CPython's [_PyUnicode_IsWhitespace]). *)
Definition isspace (c : N) : bool :=
  ((0x09 <=? c) && (c <=? 0x0D)) || ((0x1C <=? c) && (c <=? 0x20))
  || (c =? 0x85) || (c =? 0xA0) || (c =? 0x1680)
  || ((0x2000 <=? c) && (c <=? 0x200A))
  || (c =? 0x2028) || (c =? 0x2029) || (c =? 0x202F) || (c =? 0x205F)
  || (c =? 0x3000).

Fixpoint lstrip (s : str) : str :=
  match s with
  | [] => []
  | c :: s' => if isspace c then lstrip s' else s
  end.

Definition rstrip (s : str) : str := rev (lstrip (rev s)).

(** [s.strip()]: whitespace removed at both ends. *)
Definition strip (s : str) : str := rstrip (lstrip s).

(** [s.replace(old, new)] for a one-character [old]. *)
Definition replace (old : N) (new : str) (s : str) : str :=
  flat_map (fun c => if c =? old then new else [c]) s.

(** [sep.join(parts)]. *)
Fixpoint join (sep : str) (parts : list str) : str :=
  match parts with
  | [] => []
  | [p] => p
  | p :: rest => p ++ sep ++ join sep rest
  end.

(** [s] without the prefix [p], when it starts with it. *)
Fixpoint removeprefix (p s : str) : option str :=
  match p, s with
  | [], _ => Some s
  | a :: p', b :: s' => if a =? b then removeprefix p' s' else None
  | _ :: _, [] => None
  end.

(** [str(n)] for a natural number. *)
Definition str_of_nat (n : nat) : str := lit (pretty n).

End Py.

Import Py.

(** ** [html.escape] (quote=True), the standard library's five replacements
    in the library's order: the ampersand first. *)

Module Html.

Definition amp : N := 38.
Definition lt : N := 60.
Definition gt : N := 62.
Definition quot : N := 34.
Definition apos : N := 39.

Definition escape (s : str) : str :=
  let s := replace amp (lit "&amp;") s in
  let s := replace lt (lit "&lt;") s in
  let s := replace gt (lit "&gt;") s in
  let s := replace quot (lit "&quot;") s in
  let s := replace apos (lit "&#x27;") s in
  s.

(** The characters [escape] rewrites. *)
Definition special (c : N) : bool :=
  (c =? amp) || (c =? lt) || (c =? gt) || (c =? quot) || (c =? apos).

(** What [escape] does to one character. *)
Definition escape_char (c : N) : str :=
  if c =? amp then lit "&amp;"
  else if c =? lt then lit "&lt;"
  else if c =? gt then lit "&gt;"
  else if c =? quot then lit "&quot;"
  else if c =? apos then lit "&#x27;"
  else [c].

(** Reading the five entities back; used only to state that escaping loses
    nothing. *)
Definition entities : list (str * N) :=
  [(lit "&amp;", amp); (lit "&lt;", lt); (lit "&gt;", gt);
   (lit "&quot;", quot); (lit "&#x27;", apos)].

Fixpoint decode_entity (es : list (str * N)) (s : str) : option (N * str) :=
  match es with
  | [] => None
  | (e, c) :: es' =>
    match removeprefix e s with
    | Some r => Some (c, r)
    | None => decode_entity es' s
    end
  end.

Fixpoint unescape_fuel (fuel : nat) (s : str) : str :=
  match fuel with
  | O => s
  | S fuel' =>
    match decode_entity entities s with
    | Some (c, r) => c :: unescape_fuel fuel' r
    | None =>
      match s with
      | [] => []
      | c :: r => c :: unescape_fuel fuel' r
      end
    end
  end.

Definition unescape (s : str) : str := unescape_fuel (length s) s.

End Html.

(** ** Exceptions and results *)

Inductive exn : Type :=
  | ValueError (msg : str)
  | KeyError (key : str)
  | IndexError (msg : str)
  | Exception (msg : str).

(** [str(e)]. *)
Definition str_exn (e : exn) : str :=
  match e with
  | ValueError msg => msg
  | KeyError key => lit "'" ++ key ++ lit "'"
  | IndexError msg => msg
  | Exception msg => msg
  end.

Inductive result (A : Type) : Type :=
  | Return (a : A)
  | Raise (e : exn).
Arguments Return {A} a.
Arguments Raise {A} e.

(** ** Configuration *)

Definition MODEL : str := lit "llama3.2".
Definition CACHE_TIME : N := 3600.
Definition MAX_QUERY_LENGTH : nat := 500.
Definition DEBUG_MODE : bool := false.

(** ** [validate_input] *)

Definition too_short_msg : str :=
  lit "Por favor insira um tópico válido (mínimo 5 caracteres)".

Definition too_long_msg : str :=
  lit "Tópico muito longo (máximo " ++ str_of_nat MAX_QUERY_LENGTH
  ++ lit " caracteres)".

Definition validate_input (query : str) : result str :=
  if negb (truthy query) || (length (strip query) <? 5)%nat
  then Raise (ValueError too_short_msg)
  else if (MAX_QUERY_LENGTH <? length query)%nat
  then Raise (ValueError too_long_msg)
  else Return (Html.escape (strip query)).

(** ** [search_web] and its retry decorator *)

Module Search.

(** One provider result, a [dict] from field name to text. *)
Abbreviation record := (gmap str str).

(** What the body of [search_web] changes outside itself: the number of
    provider requests made so far, the time spent in the decorator's waits,
    and the lines appended to [app.log]. *)
Record state : Type := mkState {
  requests : nat;
  slept : N;
  log : list str
}.

Definition M (A : Type) : Type := state -> result A * state.

Definition ret {A} (a : A) : M A := fun st => (Return a, st).
Definition raise {A} (e : exn) : M A := fun st => (Raise e, st).
Definition bind {A B} (m : M A) (k : A -> M B) : M B :=
  fun st =>
    match m st with
    | (Return a, st') => k a st'
    | (Raise e, st') => (Raise e, st')
    end.

(** [try: body except Exception as e: handler(e)]. *)
Definition try_except {A} (body : M A) (handler : exn -> M A) : M A :=
  fun st =>
    match body st with
    | (Return a, st') => (Return a, st')
    | (Raise e, st') => handler e st'
    end.

(** [logging.error(msg)] with the default format of [logging.basicConfig]. *)
Definition logging_error (msg : str) : M unit :=
  fun st =>
    (Return tt,
     mkState (requests st) (slept st) (log st ++ [lit "ERROR:root:" ++ msg])).

Definition sleep (seconds : N) (st : state) : state :=
  mkState (requests st) (slept st + seconds) (log st).

(** Outcome of a function wrapped by tenacity's [retry]: its value, or
    [RetryError] carrying the last attempt's exception. *)
Inductive retried (A : Type) : Type :=
  | Returned (a : A)
  | RetryError (last : exn).
Arguments Returned {A} a.
Arguments RetryError {A} last.

(** [retry(stop=stop_after_attempt(n), wait=wait_fixed(w))]: call [f]; when
    it raises and fewer than [n] attempts were made, sleep [w] and call it
    again. [more] is the number of attempts still allowed after this one. *)
Fixpoint retry_from {A} (more : nat) (wait_fixed : N) (f : M A)
    (st : state) : retried A * state :=
  match f st with
  | (Return a, st') => (Returned a, st')
  | (Raise e, st') =>
    match more with
    | O => (RetryError e, st')
    | S more' => retry_from more' wait_fixed f (sleep wait_fixed st')
    end
  end.

Definition retry {A} (stop_after_attempt : nat) (wait_fixed : N) (f : M A)
    : state -> retried A * state :=
  retry_from (Nat.pred stop_after_attempt) wait_fixed f.

Definition nl : str := [10].

(** [d[key]]. *)
Definition getitem (d : record) (key : str) : result str :=
  match d !! key with
  | Some v => Return v
  | None => Raise (KeyError key)
  end.

(** The f-string of lines 43-47: the title and the body go through
    [html.escape], the href is interpolated as it is. *)
Definition news_entry (title href body : str) : str :=
  lit "Título: " ++ Html.escape title ++ nl
  ++ lit "URL: " ++ href ++ nl
  ++ lit "Descrição: " ++ Html.escape body ++ nl.

(** The [for result in results] loop, carrying [news_results] and
    [seen_urls]. A missing field raises [KeyError] in the order the source
    evaluates the subscripts: href (the membership test), title, href, body. *)
Fixpoint collect (results : list record) (news_results : list str)
    (seen_urls : gset str) : result (list str) :=
  match results with
  | [] => Return news_results
  | result :: rest =>
    match getitem result (lit "href") with
    | Raise e => Raise e
    | Return href =>
      if decide (href ∈ seen_urls) then collect rest news_results seen_urls
      else
        match getitem result (lit "title") with
        | Raise e => Raise e
        | Return title =>
          match getitem result (lit "body") with
          | Raise e => Raise e
          | Return body =>
            collect rest (news_results ++ [news_entry title href body])
                    ({[href]} ∪ seen_urls)
          end
        end
    end
  end.

Definition no_results : str := lit "Nenhum resultado encontrado.".
Definition no_valid_results : str := lit "Nenhum resultado válido.".

Section Provider.

(** The environment: today's date as [strftime("%Y-%m-%d")] prints it, and
    the search provider. [ddgs_text i q] is what the [i]-th request made by
    the process answers to the query text [q]: a result list or an
    exception. The fixed arguments (max_results=10, region, safesearch) are
    the provider's business. *)
Variable current_date : str.
Variable ddgs_text : nat -> str -> result (list record).

Definition request (q : str) : M (list record) :=
  fun st =>
    (ddgs_text (requests st) q,
     mkState (S (requests st)) (slept st) (log st)).

(** Lines 28-51, the [try] block. *)
Definition search_web_try (query : str) : M str :=
  bind (request (query ++ lit " after:" ++ current_date)) (fun results =>
  match results with
  | [] => ret no_results
  | _ :: _ =>
    match collect results [] ∅ with
    | Raise e => raise e
    | Return news_results =>
      ret (match news_results with
           | [] => no_valid_results
           | _ :: _ => join (nl ++ nl) news_results
           end)
    end
  end).

(** Lines 53-55, the handler. *)
Definition search_web_except (e : exn) : M str :=
  bind (logging_error (lit "Erro na pesquisa: " ++ str_exn e)) (fun _ =>
  ret (lit "Erro na pesquisa: " ++ str_exn e)).

(** The decorated function's own body (lines 25-55). *)
Definition search_web_body (query : str) : M str :=
  try_except (search_web_try query) search_web_except.

(** [search_web] as callers see it, under
    [@retry(stop=stop_after_attempt(3), wait=wait_fixed(1))]. *)
Definition search_web (query : str) : state -> retried str * state :=
  retry 3 1 (search_web_body query).

End Provider.

Definition initial : state := mkState 0 0 [].

(** Building a provider record from its three fields. *)
Definition mk_record (title href body : str) : record :=
  <[lit "title" := title]> (<[lit "href" := href]> (<[lit "body" := body]> ∅)).

End Search.

(** ** The agents, [process_research] and [main] *)

Module App.

Abbreviation nl := Search.nl.

Inductive tool : Type := search_web_tool.

Record Agent : Type := mkAgent {
  name : str;
  instructions : str;
  functions : list tool;
  model : str
}.

Definition web_search_agent : Agent :=
  mkAgent (lit "Pesquisador Web")
          (lit "Colete artigos e notícias recentes usando DuckDuckGo")
          [search_web_tool] MODEL.

Definition researcher_agent : Agent :=
  mkAgent (lit "Analista de Conteúdo")
          (lit "Organize e analise o conteúdo coletado:
    1. Estruture o texto em seções temáticas claras com base nos tópicos coletados.
    2. Verifique a validade e relevância das informações, cruzando dados com pelo menos duas fontes confiáveis.
    3. Adicione contexto histórico ou explicativo quando necessário para tornar o conteúdo mais acessível.
    4. Priorize informações relevantes ao público do LinkedIn, como insights acionáveis e tendências de mercado.")
          [] MODEL.

Definition writer_agent : Agent :=
  mkAgent (lit "Redator Profissional")
          (lit "Escreva um artigo de notícias em formato markdown baseado no conteúdo analisado:
    0. Formato markdown sem emojis
    1. Estruture em seções: Introdução, Tópicos Principais, Conclusão.
    2. Adicione subtítulos claros e utilize listas quando necessário para facilitar a leitura.
    3. Mantenha um tom profissional, informativo e engajador, apropriado para redes profissionais como LinkedIn.
    4. Garanta fluidez e transição entre tópicos, evitando redundâncias.
    5. Use dados coletados pelo analista, citando fontes no final do artigo (quando aplicável)
    6. Caso o texto contenha termos técnicos em inglês, mantenha-os em inglês.")
          [] MODEL.

Definition proofreader_agent : Agent :=
  mkAgent (lit "Revisor Final")
          (lit "Realize uma revisão detalhada do artigo, corrigindo:
    1. Erros gramaticais, ortográficos e de concordância em português.
    2. O estilo, mantendo o tom profissional e objetivo.
    3. A formatação em markdown, garantindo que títulos, subtítulos e listas estejam claros.
    4. Remover qualquer menção a limitação dos agentes Swarm ou do LLaMA
    5, Garanta que não tenha emojis no texto final.")
          [] MODEL.

Record Message : Type := mkMessage { role : str; content : str }.

Definition user (text : str) : Message := mkMessage (lit "user") text.

(** A value held by a streamed chunk: [None] or a string. *)
Inductive value : Type :=
  | VNone
  | VStr (s : str).

Abbreviation chunk := (gmap str value).

(** What the page shows, in the order the calls are made. *)
Inductive element : Type :=
  | Write (text : str)
  | Error (text : str)
  | Placeholder (text : str)
  | StatusComplete (label : str)
  | Markdown (text : str)
  | Subheader (text : str)
  | DownloadButton (data file_name mime : str).

(** One language-model invocation as [client.run] receives it. *)
Record invocation : Type := mkInvocation {
  agent : Agent;
  messages : list Message;
  stream : bool
}.

(** The process state the program reads and writes: the invocations made so
    far, [app.log], the store behind [st.cache_data] (topic to draft and the
    time it was stored), [st.session_state], and the rendered page. *)
Record state : Type := mkState {
  trace : list invocation;
  log : list str;
  cache : gmap str (str * N);
  session_state : gmap str str;
  page : list element
}.

Definition set_trace (t : list invocation) (st : state) : state :=
  mkState t (log st) (cache st) (session_state st) (page st).
Definition set_log (l : list str) (st : state) : state :=
  mkState (trace st) l (cache st) (session_state st) (page st).
Definition set_cache (c : gmap str (str * N)) (st : state) : state :=
  mkState (trace st) (log st) c (session_state st) (page st).
Definition set_session_state (s : gmap str str) (st : state) : state :=
  mkState (trace st) (log st) (cache st) s (page st).
Definition show (e : element) (st : state) : state :=
  mkState (trace st) (log st) (cache st) (session_state st) (page st ++ [e]).

Definition M (A : Type) : Type := state -> result A * state.

Definition ret {A} (a : A) : M A := fun st => (Return a, st).
Definition raise {A} (e : exn) : M A := fun st => (Raise e, st).
Definition bind {A B} (m : M A) (k : A -> M B) : M B :=
  fun st =>
    match m st with
    | (Return a, st') => k a st'
    | (Raise e, st') => (Raise e, st')
    end.
Definition lift {A} (r : result A) : M A := fun st => (r, st).
Definition act (f : state -> state) : M unit := fun st => (Return tt, f st).

Declare Scope app_scope.
Notation "'let*' x ':=' m 'in' k" := (bind m (fun x => k))
  (at level 10, x name, m at level 100, k at level 200) : app_scope.
Notation "m '>>' k" := (bind m (fun _ => k))
  (at level 100, k at level 200, right associativity) : app_scope.
Local Open Scope app_scope.

Definition try_except {A} (body : M A) (handler : exn -> M A) : M A :=
  fun st =>
    match body st with
    | (Return a, st') => (Return a, st')
    | (Raise e, st') => handler e st'
    end.

Definition logging_error (msg : str) : M unit :=
  act (fun st => set_log (log st ++ [lit "ERROR:root:" ++ msg]) st).

(** [messages[-1]["content"]]. *)
Definition last_content (msgs : list Message) : result str :=
  match last msgs with
  | Some m => Return (content m)
  | None => Raise (IndexError (lit "list index out of range"))
  end.

(** [debug_step]: writes to the page only under [DEBUG_MODE]. *)
Definition debug_text (content step_name : str) : str :=
  let ind := lit "        " in
  nl ++ ind ++ lit "### Debug: " ++ step_name ++ nl
  ++ ind ++ lit "**Tipo:** `<class 'str'>`  " ++ nl
  ++ ind ++ lit "**Tamanho:** `" ++ str_of_nat (length content)
  ++ lit " caracteres`  " ++ nl
  ++ ind ++ lit "**Prévia:**  " ++ nl
  ++ ind ++ lit "```text" ++ nl
  ++ ind ++ take 200 content
  ++ (if (200 <? length content)%nat then lit "..." else []) ++ nl
  ++ ind ++ lit "```" ++ nl
  ++ ind.

Definition debug_step (content step_name : str) : M unit :=
  if DEBUG_MODE then act (show (Write (debug_text content step_name)))
  else ret tt.

(** [st.cache_data(ttl=...)] around a one-argument function: an entry stored
    at time [stored] answers calls at times [now < stored + ttl]; otherwise
    the function runs and, when it returns, its value is stored under the
    argument with the current time. A raised exception stores nothing. *)
Definition cache_data (ttl : N) (f : str -> M str) (now : N) (key : str)
    : M str :=
  fun st =>
    let run :=
      match f key st with
      | (Return v, st') => (Return v, set_cache (<[key := (v, now)]> (cache st')) st')
      | (Raise e, st') => (Raise e, st')
      end in
    match cache st !! key with
    | Some (v, stored) => if now <? stored + ttl then (Return v, st) else run
    | None => run
    end.

Definition cursor : str := lit "▌".

(** [chunk.get('content')] as a condition, and the text then appended. *)
Definition chunk_text (c : chunk) : option str :=
  match c !! lit "content" with
  | Some (VStr s) => if truthy s then Some s else None
  | Some VNone => None
  | None => None
  end.

(** The [for chunk in proofread_stream] loop over the chunks that arrive. *)
Fixpoint consume (chunks : list chunk) (full_response : str) (st : state)
    : str * state :=
  match chunks with
  | [] => (full_response, st)
  | c :: rest =>
    match chunk_text c with
    | Some text =>
      let full_response := full_response ++ text in
      consume rest full_response (show (Placeholder (full_response ++ cursor)) st)
    | None => consume rest full_response st
    end
  end.

(** One call of the search tool made by the runtime in the course of an
    invocation: the query the model chose, and the date and the provider's
    answer at the time of the call. *)
Record tool_call : Type := mkToolCall {
  tool_query : str;
  tool_date : str;
  tool_answer : result (list Search.record)
}.

(** [search_web] run for one tool call: it writes to the same [app.log],
    whose lines afterwards are returned. *)
Definition search_web_log (c : tool_call) (log : list str) : list str :=
  Search.log
    (snd (Search.search_web (tool_date c) (fun _ _ => tool_answer c)
            (tool_query c) (Search.mkState 0 0 log))).

(** The tool calls of an invocation, run in order; an agent without
    functions has no tool to call. *)
Definition run_tools (fs : list tool) (calls : list tool_call)
    (log : list str) : list str :=
  match fs with
  | [] => log
  | search_web_tool :: _ => fold_left (fun l c => search_web_log c l) calls log
  end.

Section Client.

(** The language-model runtime. [client_run i agent messages] is the
    [messages] list of the response to the [i]-th invocation of the
    process, or the exception it raises; [client_tools i agent messages]
    are the tool calls the runtime makes for the model before that
    invocation ends. [client_stream i agent messages] is the streamed
    response: the chunks that arrive, then exhaustion ([None]) or an
    exception raised while iterating. *)
Variable client_run : nat -> Agent -> list Message -> result (list Message).
Variable client_tools : nat -> Agent -> list Message -> list tool_call.
Variable client_stream :
  nat -> Agent -> list Message -> list chunk * option exn.

Definition run (a : Agent) (msgs : list Message) : M (list Message) :=
  fun st =>
    (client_run (length (trace st)) a msgs,
     set_log
       (run_tools (functions a) (client_tools (length (trace st)) a msgs)
          (log st))
       (set_trace (trace st ++ [mkInvocation a msgs false]) st)).

Definition run_stream (a : Agent) (msgs : list Message)
    : M (list chunk * option exn) :=
  fun st =>
    (Return (client_stream (length (trace st)) a msgs),
     set_log
       (run_tools (functions a) (client_tools (length (trace st)) a msgs)
          (log st))
       (set_trace (trace st ++ [mkInvocation a msgs true]) st)).

(** Lines 126-147, the [try] block of [process_research]. *)
Definition process_research_try (query : str) : M str :=
  let* search_result :=
    run web_search_agent [user (lit "Pesquise sobre: " ++ query)] in
  let* raw_data := lift (last_content search_result) in
  debug_step raw_data (lit "Dados Brutos da Pesquisa") >>
  let* analysis_result :=
    run researcher_agent [user (lit "Analise estes dados:" ++ nl ++ raw_data)] in
  let* clean_data := lift (last_content analysis_result) in
  debug_step clean_data (lit "Dados Processados") >>
  let* draft_result :=
    run writer_agent [user (lit "Crie um artigo usando:" ++ nl ++ clean_data)] in
  lift (last_content draft_result).

(** The undecorated function: log and re-raise. *)
Definition process_research_body (query : str) : M str :=
  try_except (process_research_try query)
    (fun e => logging_error (lit "Erro no processamento: " ++ str_exn e) >>
              raise e).

(** [process_research] as [main] calls it, under
    [@st.cache_data(ttl=CACHE_TIME)]. *)
Definition process_research (now : N) (query : str) : M str :=
  cache_data CACHE_TIME process_research_body now query.

Definition article_key : str := lit "article".

(** Lines 197-216: the proofreading stream, the placeholder and the
    assignment to the session state. *)
Definition proofread (article_draft : str) : M unit :=
  let* proofread_stream :=
    run_stream proofreader_agent [user (lit "Revise:" ++ nl ++ article_draft)] in
  fun st =>
    let (full_response, st) := consume (fst proofread_stream) [] st in
    match snd proofread_stream with
    | Some e => (Raise e, st)
    | None =>
      let st := show (Placeholder full_response) st in
      let st :=
        set_session_state (<[article_key := full_response]> (session_state st)) st in
      (Return tt, st)
    end.

(** Lines 187-220: the submit branch. *)
Definition submit_try (now : N) (query_input : str) : M unit :=
  let* clean_query := lift (validate_input query_input) in
  act (show (Write (lit "🔍 Realizando pesquisa web..."))) >>
  let* article_draft := process_research now clean_query in
  act (show (Write (lit "✍️ Gerando artigo em tempo real..."))) >>
  proofread article_draft >>
  act (show (StatusComplete (lit "Artigo completo! ✅"))).

Definition submit (now : N) (query_input : str) : M unit :=
  try_except (submit_try now query_input)
    (fun e => act (show (Error (lit "Erro: " ++ str_exn e)))).

(** [st.session_state.article], once line 166 has run. *)
Definition article (st : state) : str :=
  default [] (session_state st !! article_key).

(** Lines 165-166. *)
Definition init_article (st : state) : state :=
  match session_state st !! article_key with
  | Some _ => st
  | None => set_session_state (<[article_key := []]> (session_state st)) st
  end.

(** Lines 223-233. *)
Definition show_article (st : state) : state :=
  if truthy (article st) then
    show (DownloadButton (article st) (lit "artigo_llm.md") (lit "text/markdown"))
      (show (Markdown (article st))
         (show (Subheader (lit "Seu Artigo Pronto")) st))
  else st.

(** One execution of the script without the clear button. *)
Definition render (now : N) (submit_btn : bool) (query_input : str)
    (st : state) : state :=
  let st := init_article st in
  let st :=
    if submit_btn && truthy query_input
    then snd (submit now query_input st) else st in
  show_article st.

(** [main]: the clear button empties the session state and reruns the
    script, which then sees no button pressed. *)
Definition main (now : N) (clear_btn submit_btn : bool) (query_input : str)
    (st : state) : state :=
  if clear_btn then render now false [] (set_session_state ∅ st)
  else render now submit_btn query_input st.

End Client.

Definition initial : state := mkState [] [] ∅ ∅ [].

(** A chunk carrying text, and one carrying none. *)
Definition text_chunk (s : str) : chunk := {[ lit "content" := VStr s ]}.
Definition delim_chunk (d : str) : chunk := {[ lit "delim" := VStr d ]}.

End App.

(** ** Vocabulary of the statements *)

Module Spec.

Import Search.

(** A field of a provider record, empty when absent. *)
Definition field (r : record) (key : str) : str := default [] (r !! key).

Definition title (r : record) : str := field r (lit "title").
Definition href (r : record) : str := field r (lit "href").
Definition body (r : record) : str := field r (lit "body").

(** The record carries the three fields [search_web] reads. *)
Definition complete (r : record) : Prop :=
  is_Some (r !! lit "title") /\ is_Some (r !! lit "href")
  /\ is_Some (r !! lit "body").

(** The records whose url occurs neither in [seen] nor earlier in the
    list, in the order of the list. *)
Fixpoint first_seen (seen : gset str) (rs : list record) : list record :=
  match rs with
  | [] => []
  | r :: rest =>
    if decide (href r ∈ seen) then first_seen seen rest
    else r :: first_seen ({[href r]} ∪ seen) rest
  end.

(** The text block of one record. *)
Definition block (r : record) : str := news_entry (title r) (href r) (body r).

(** The text of the chunks that carry text, in order. *)
Definition texts (chunks : list App.chunk) : list str :=
  omap App.chunk_text chunks.

(** The running buffers after each chunk that carries text. *)
Fixpoint buffers (buffer : str) (ts : list str) : list str :=
  match ts with
  | [] => []
  | t :: ts' => (buffer ++ t) :: buffers (buffer ++ t) ts'
  end.

End Spec.

(** ** Sample inputs *)

Module Sample.

Import Search App.

Definition date : str := lit "2026-11-04".

Definition three_results : list record :=
  [mk_record (lit "A & B") (lit "http://x/?a=1&b=2") (lit "first <b>");
   mk_record (lit "C") (lit "http://y") (lit "second");
   mk_record (lit "D") (lit "http://x/?a=1&b=2") (lit "third")].

(** A provider that answers every request with the same three results. *)
Definition steady (i : nat) (q : str) : result (list record) :=
  Return three_results.


(** A provider that finds nothing. *)
Definition silent (i : nat) (q : str) : result (list record) := Return [].

(** A provider whose first request times out and whose later ones answer. *)
Definition flaky (i : nat) (q : str) : result (list record) :=
  match i with
  | O => Raise (Exception (lit "timeout"))
  | S _ => Return three_results
  end.

Definition reply (text : str) : result (list Message) :=
  Return [mkMessage (lit "assistant") text].

(** A runtime whose [i]-th invocation answers with the text [r<i>]. *)
Definition numbered (i : nat) (a : Agent) (msgs : list Message)
    : result (list Message) :=
  reply (lit "r" ++ str_of_nat i).

(** A runtime whose analysis stage raises. *)
Definition analysis_down (i : nat) (a : Agent) (msgs : list Message)
    : result (list Message) :=
  match i with
  | 1%nat => Raise (Exception (lit "model offline"))
  | _ => reply (lit "r" ++ str_of_nat i)
  end.

(** A runtime whose models never call the search tool. *)
Definition no_tools (i : nat) (a : Agent) (msgs : list Message)
    : list tool_call := [].

Definition ola_chunks : list chunk :=
  [text_chunk (lit "Ol"); text_chunk (lit "á, "); text_chunk (lit "mundo")].

(** The three text chunks between the delimiters a stream also carries,
    with one chunk whose content is [None]. *)
Definition ola_stream (i : nat) (a : Agent) (msgs : list Message)
    : list chunk * option exn :=
  ([delim_chunk (lit "start"); text_chunk (lit "Ol"); text_chunk (lit "á, ");
    {[ lit "content" := VNone ]}; text_chunk (lit "mundo");
    delim_chunk (lit "end")], None).

(** A stream that breaks after two text chunks. *)
Definition broken_stream (i : nat) (a : Agent) (msgs : list Message)
    : list chunk * option exn :=
  ([text_chunk (lit "Ol"); text_chunk (lit "á, ")],
   Some (Exception (lit "connection reset"))).

Definition topic : str := lit "Impacto da IA no mercado de trabalho".

End Sample.

(** ** Further vocabulary and sample inputs *)

Module More.

Import Search App.

(** The characters that open or close markup or an attribute value. *)
Definition markup (c : N) : bool :=
  (c =? Html.lt) || (c =? Html.gt) || (c =? Html.quot) || (c =? Html.apos).

(** The record carries an href, whatever else it lacks. *)
Definition has_href (r : record) : Prop := is_Some (r !! lit "href").

(** Two complete records around a bare repetition of the first url. *)
Definition bare_duplicate : list record :=
  [mk_record (lit "A") (lit "http://x") (lit "first");
   {[ lit "href" := lit "http://x" ]};
   mk_record (lit "C") (lit "http://y") (lit "second")].

Definition repeating (i : nat) (q : str) : result (list record) :=
  Return bare_duplicate.

(** A complete record followed by one without any url. *)
Definition no_url : list record :=
  [mk_record (lit "A") (lit "http://x") (lit "first");
   {[ lit "title" := lit "B" ]}].

Definition urlless (i : nat) (q : str) : result (list record) :=
  Return no_url.

(** Two complete records with different urls. *)
Definition two_distinct : list record :=
  [mk_record (lit "A") (lit "http://x") (lit "first");
   mk_record (lit "C") (lit "http://y") (lit "second")].

Definition distinct (i : nat) (q : str) : result (list record) :=
  Return two_distinct.

(** A provider that is down. *)
Definition down (i : nat) (q : str) : result (list record) :=
  Raise (Exception (lit "timeout")).

(** A runtime whose search stage answers with no message at all. *)
Definition speechless (i : nat) (a : Agent) (msgs : list Message)
    : result (list Message) :=
  match i with
  | O => Return []
  | S _ => Sample.reply (lit "r" ++ str_of_nat i)
  end.

(** A line that [search_web] writes to the log. *)
Definition search_error_line (line : str) : Prop :=
  exists e, line = lit "ERROR:root:" ++ lit "Erro na pesquisa: " ++ str_exn e.

(** The line that [process_research] writes to the log. *)
Definition processing_error_line (e : exn) : str :=
  lit "ERROR:root:" ++ lit "Erro no processamento: " ++ str_exn e.

(** One of the three stages of a fresh run on [topic] raises [e], the
    stages before it having answered; [n] is the number of invocations
    made before the run. *)
Definition stage_raises
    (client_run : nat -> Agent -> list Message -> result (list Message))
    (n : nat) (topic : str) (e : exn) : Prop :=
  client_run n web_search_agent [user (lit "Pesquise sobre: " ++ topic)]
    = Raise e
  \/ exists r1 raw_data,
       client_run n web_search_agent [user (lit "Pesquise sobre: " ++ topic)]
         = Return r1
       /\ last_content r1 = Return raw_data
       /\ (client_run (n + 1)%nat researcher_agent
             [user (lit "Analise estes dados:" ++ nl ++ raw_data)] = Raise e
           \/ exists r2 clean_data,
                client_run (n + 1)%nat researcher_agent
                  [user (lit "Analise estes dados:" ++ nl ++ raw_data)]
                  = Return r2
                /\ last_content r2 = Return clean_data
                /\ client_run (n + 1 + 1)%nat writer_agent
                     [user (lit "Crie um artigo usando:" ++ nl ++ clean_data)]
                   = Raise e).

(** A runtime whose search stage calls the tool once while the provider
    is down. *)
Definition one_failed_search (i : nat) (a : Agent) (msgs : list Message)
    : list tool_call :=
  [mkToolCall (lit "ia") Sample.date (Raise (Exception (lit "timeout")))].

(** A stream that carries no text. *)
Definition blank_stream (i : nat) (a : Agent) (msgs : list Message)
    : list chunk * option exn :=
  ([delim_chunk (lit "start"); delim_chunk (lit "end")], None).

End More.

(** * Properties *)

(** ** Strings *)

Section StringFacts.

Lemma lstrip_split (s : str) :
  exists l, s = l ++ lstrip s /\ forallb isspace l = true.
Proof.
  induction s as [|c s [l [Hs Hl]]]; simpl.
  - exists []. split; reflexivity.
  - destruct (isspace c) eqn:Hc.
    + exists (c :: l). simpl. rewrite Hc, Hl. split; [congruence | reflexivity].
    + exists []. split; reflexivity.
Qed.

Lemma lstrip_head (s : str) (c : N) :
  head (lstrip s) = Some c -> isspace c = false.
Proof.
  induction s as [|a s IH]; simpl; [discriminate|].
  destruct (isspace a) eqn:Ha; [exact IH|].
  simpl. intros [= <-]. exact Ha.
Qed.

Lemma lstrip_length (s : str) : (length (lstrip s) <= length s)%nat.
Proof.
  destruct (lstrip_split s) as [l [Hs _]].
  rewrite Hs at 2. rewrite length_app. lia.
Qed.

Lemma forallb_rev {A} (f : A -> bool) (l : list A) :
  forallb f (rev l) = forallb f l.
Proof.
  induction l as [|a l IH]; simpl; [reflexivity|].
  rewrite forallb_app, IH. simpl. rewrite andb_true_r. apply andb_comm.
Qed.

Lemma rstrip_split (s : str) :
  exists r, s = rstrip s ++ r /\ forallb isspace r = true.
Proof.
  unfold rstrip. destruct (lstrip_split (rev s)) as [l [Hs Hl]].
  exists (rev l). split.
  - rewrite <- rev_app_distr, <- Hs. symmetry. apply rev_involutive.
  - rewrite forallb_rev. exact Hl.
Qed.

Lemma rstrip_last (s : str) (c : N) :
  last (rstrip s) = Some c -> isspace c = false.
Proof.
  unfold rstrip. intros H. apply (lstrip_head (rev s)).
  destruct (lstrip (rev s)) as [|a t]; [discriminate|].
  simpl in H. rewrite last_snoc in H. exact H.
Qed.

(** A non-blank first character survives [rstrip]. *)
Lemma rstrip_head (s : str) (c : N) :
  head s = Some c -> isspace c = false -> head (rstrip s) = Some c.
Proof.
  destruct s as [|a s]; simpl; [discriminate|]. intros [= ->] Hc.
  unfold rstrip.
  assert (H : forall t, exists t', lstrip (t ++ [c]) = t' ++ [c]).
  { induction t as [|b t [t' IH]]; simpl.
    - rewrite Hc. exists []. reflexivity.
    - destruct (isspace b).
      + exists t'. exact IH.
      + exists (b :: t). reflexivity. }
  simpl. destruct (H (rev s)) as [t' ->].
  rewrite rev_app_distr. reflexivity.
Qed.

(** [strip] keeps one contiguous part of the string, cut where the
    whitespace ends on either side. *)
Lemma strip_spec (s : str) :
  (exists l r, s = l ++ strip s ++ r
               /\ forallb isspace l = true /\ forallb isspace r = true)
  /\ (forall c, head (strip s) = Some c -> isspace c = false)
  /\ (forall c, last (strip s) = Some c -> isspace c = false).
Proof.
  unfold strip. split; [|split].
  - destruct (lstrip_split s) as [l [Hs Hl]].
    destruct (rstrip_split (lstrip s)) as [r [Hr Hr']].
    exists l, r. split; [|split; assumption].
    rewrite <- Hr. exact Hs.
  - intros c Hc. destruct (lstrip s) as [|a t] eqn:Ht; [discriminate|].
    assert (Ha : isspace a = false) by (apply (lstrip_head s); rewrite Ht; reflexivity).
    rewrite (rstrip_head (a :: t) a eq_refl Ha) in Hc. congruence.
  - apply rstrip_last.
Qed.

Lemma strip_length (s : str) : (length (strip s) <= length s)%nat.
Proof.
  destruct (strip_spec s) as [[l [r [Hs _]]] _].
  rewrite Hs at 2. rewrite !length_app. lia.
Qed.

Lemma replace_app (old : N) (new a b : str) :
  replace old new (a ++ b) = replace old new a ++ replace old new b.
Proof. unfold replace. apply flat_map_app. Qed.

Lemma escape_app (a b : str) :
  Html.escape (a ++ b) = Html.escape a ++ Html.escape b.
Proof. unfold Html.escape. rewrite !replace_app. reflexivity. Qed.

Lemma escape_single (c : N) : Html.escape [c] = Html.escape_char c.
Proof.
  unfold Html.escape_char.
  destruct (N.eqb_spec c Html.amp) as [->|Hamp]; [reflexivity|].
  destruct (N.eqb_spec c Html.lt) as [->|Hlt]; [reflexivity|].
  destruct (N.eqb_spec c Html.gt) as [->|Hgt]; [reflexivity|].
  destruct (N.eqb_spec c Html.quot) as [->|Hquot]; [reflexivity|].
  destruct (N.eqb_spec c Html.apos) as [->|Hapos]; [reflexivity|].
  unfold Html.escape, replace. simpl.
  apply N.eqb_neq in Hamp, Hlt, Hgt, Hquot, Hapos.
  rewrite Hamp. simpl. rewrite Hlt. simpl. rewrite Hgt. simpl.
  rewrite Hquot. simpl. rewrite Hapos. reflexivity.
Qed.

(** [html.escape] works character by character. *)
Lemma escape_cons (c : N) (s : str) :
  Html.escape (c :: s) = Html.escape_char c ++ Html.escape s.
Proof. rewrite <- escape_single. apply (escape_app [c] s). Qed.

Lemma entities_val :
  Html.entities =
  [([38; 97; 109; 112; 59], 38); ([38; 108; 116; 59], 60);
   ([38; 103; 116; 59], 62); ([38; 113; 117; 111; 116; 59], 34);
   ([38; 35; 120; 50; 55; 59], 39)].
Proof. vm_compute. reflexivity. Qed.

Lemma decode_entity_other (c : N) (r : str) :
  c <> Html.amp -> Html.decode_entity Html.entities (c :: r) = None.
Proof.
  intros Hc.
  assert (H : (38 =? c) = false)
    by (apply N.eqb_neq; intros E; apply Hc; rewrite <- E; reflexivity).
  rewrite entities_val. cbn [Html.decode_entity removeprefix].
  rewrite H. reflexivity.
Qed.

Lemma decode_entity_escape_char (c : N) (t : str) :
  Html.special c = true ->
  Html.decode_entity Html.entities (Html.escape_char c ++ t) = Some (c, t).
Proof.
  unfold Html.special, Html.escape_char. rewrite entities_val.
  destruct (N.eqb_spec c Html.amp) as [->|_]; [reflexivity|].
  destruct (N.eqb_spec c Html.lt) as [->|_]; [reflexivity|].
  destruct (N.eqb_spec c Html.gt) as [->|_]; [reflexivity|].
  destruct (N.eqb_spec c Html.quot) as [->|_]; [reflexivity|].
  destruct (N.eqb_spec c Html.apos) as [->|_]; [reflexivity|].
  discriminate.
Qed.

Lemma escape_char_other (c : N) :
  Html.special c = false -> Html.escape_char c = [c] /\ c <> Html.amp.
Proof.
  unfold Html.special, Html.escape_char.
  destruct (N.eqb_spec c Html.amp) as [->|Hamp]; [discriminate|].
  destruct (c =? Html.lt); [discriminate|].
  destruct (c =? Html.gt); [discriminate|].
  destruct (c =? Html.quot); [discriminate|].
  destruct (c =? Html.apos); [discriminate|].
  intros _. split; [reflexivity | exact Hamp].
Qed.

Lemma unescape_fuel_escape (s : str) :
  forall n, (length s <= n)%nat -> Html.unescape_fuel n (Html.escape s) = s.
Proof.
  induction s as [|c s IH]; intros n Hn.
  - destruct n; reflexivity.
  - destruct n as [|n]; [simpl in Hn; lia|].
    assert (Hs : (length s <= n)%nat) by (simpl in Hn; lia).
    specialize (IH n Hs). rewrite escape_cons.
    remember (Html.escape s) as t eqn:Ht.
    destruct (Html.special c) eqn:Hc.
    + cbn [Html.unescape_fuel].
      rewrite (decode_entity_escape_char c t Hc), IH. reflexivity.
    + destruct (escape_char_other c Hc) as [-> Hamp].
      change ([c] ++ t) with (c :: t). cbn [Html.unescape_fuel].
      rewrite (decode_entity_other c t Hamp), IH. reflexivity.
Qed.

Lemma escape_length (s : str) : (length s <= length (Html.escape s))%nat.
Proof.
  induction s as [|c s IH]; [simpl; lia|].
  rewrite escape_cons, length_app. simpl.
  assert (1 <= length (Html.escape_char c))%nat; [|lia].
  unfold Html.escape_char.
  repeat (match goal with |- context [if ?b then _ else _] => destruct b end;
          [vm_compute; lia|]).
  simpl. lia.
Qed.

(** Escaping loses nothing: the five entities read back give the text. *)
Lemma unescape_escape (s : str) : Html.unescape (Html.escape s) = s.
Proof. apply unescape_fuel_escape, escape_length. Qed.

End StringFacts.

(** ** Facts about the search loop *)

Section SearchFacts.

Import Search Spec.

Lemma getitem_field (r : record) (key : str) :
  is_Some (r !! key) -> getitem r key = Return (field r key).
Proof. intros [v Hv]. unfold getitem, field. rewrite Hv. reflexivity. Qed.

(** On records that carry their fields the loop never raises, and it
    appends the blocks of the first-seen records to what it has. *)
Lemma collect_first_seen (rs : list record) :
  forall acc seen,
    Forall complete rs ->
    collect rs acc seen = Return (acc ++ (block <$> first_seen seen rs)).
Proof.
  induction rs as [|r rs IH]; intros acc seen Hrs.
  - simpl. rewrite app_nil_r. reflexivity.
  - apply Forall_cons in Hrs as [[Ht [Hh Hb]] Hrest].
    cbn [collect first_seen]. rewrite (getitem_field r _ Hh).
    unfold href at 1 2.
    destruct (decide (field r (lit "href") ∈ seen)) as [Hin|Hout].
    + apply IH. exact Hrest.
    + rewrite (getitem_field r _ Ht), (getitem_field r _ Hb).
      rewrite (IH _ _ Hrest). rewrite <- app_assoc. reflexivity.
Qed.

Lemma first_seen_sublist (rs : list record) :
  forall seen, sublist (first_seen seen rs) rs.
Proof.
  induction rs as [|r rs IH]; intros seen; simpl; [constructor|].
  destruct (decide (href r ∈ seen)).
  - apply sublist_cons, IH.
  - apply sublist_skip, IH.
Qed.

Lemma first_seen_fresh (rs : list record) :
  forall seen r, r ∈ first_seen seen rs -> href r ∉ seen.
Proof.
  induction rs as [|a rs IH]; intros seen r; simpl.
  - intros H. apply elem_of_nil in H. contradiction.
  - destruct (decide (href a ∈ seen)) as [Hin|Hout].
    + apply IH.
    + intros H. apply elem_of_cons in H as [->|H]; [exact Hout|].
      apply IH in H. set_solver.
Qed.

Lemma first_seen_NoDup (rs : list record) :
  forall seen, NoDup (href <$> first_seen seen rs).
Proof.
  induction rs as [|a rs IH]; intros seen; simpl; [constructor|].
  destruct (decide (href a ∈ seen)) as [Hin|Hout]; [apply IH|].
  rewrite fmap_cons. apply NoDup_cons. split; [|apply IH].
  intros H. apply list_elem_of_fmap in H as [r [Hr Hin]].
  apply first_seen_fresh in Hin. set_solver.
Qed.

Lemma first_seen_covers (rs : list record) :
  forall seen r,
    r ∈ rs -> href r ∈ seen \/ href r ∈ href <$> first_seen seen rs.
Proof.
  induction rs as [|a rs IH]; intros seen r H.
  - apply elem_of_nil in H. contradiction.
  - simpl. apply elem_of_cons in H as [->|H].
    + destruct (decide (href a ∈ seen)) as [Hin|Hout]; [left; exact Hin|].
      right. rewrite fmap_cons. apply elem_of_cons. left. reflexivity.
    + destruct (decide (href a ∈ seen)) as [Hin|Hout]; [apply IH, H|].
      destruct (IH ({[href a]} ∪ seen) r H) as [Hs|Hk].
      * apply elem_of_union in Hs as [Hs|Hs]; [|left; exact Hs].
        apply elem_of_singleton in Hs. right. rewrite fmap_cons, Hs.
        apply elem_of_cons. left. reflexivity.
      * right. rewrite fmap_cons. apply elem_of_cons. right. exact Hk.
Qed.

Lemma first_seen_first (rs : list record) :
  forall seen r,
    r ∈ first_seen seen rs ->
    exists pre post, rs = pre ++ r :: post /\ href r ∉ href <$> pre.
Proof.
  induction rs as [|a rs IH]; intros seen r; simpl.
  - intros H. apply elem_of_nil in H. contradiction.
  - destruct (decide (href a ∈ seen)) as [Hin|Hout]; intros H.
    + pose proof (first_seen_fresh _ _ _ H) as Hfresh.
      destruct (IH _ _ H) as [pre [post [-> Hpre]]].
      exists (a :: pre), post. split; [reflexivity|].
      rewrite fmap_cons. apply not_elem_of_cons. split; [|exact Hpre].
      intros E. apply Hfresh. rewrite E. exact Hin.
    + apply elem_of_cons in H as [->|H].
      * exists [], rs. split; [reflexivity|]. rewrite fmap_nil.
        apply not_elem_of_nil.
      * pose proof (first_seen_fresh _ _ _ H) as Hfresh.
        destruct (IH _ _ H) as [pre [post [-> Hpre]]].
        exists (a :: pre), post. split; [reflexivity|].
        rewrite fmap_cons. apply not_elem_of_cons. split; [|exact Hpre].
        intros E. apply Hfresh. rewrite E. set_solver.
Qed.

Lemma join_cons (sep b : str) (bs : list str) :
  exists tail, join sep (b :: bs) = b ++ tail.
Proof.
  destruct bs as [|b' bs]; simpl.
  - exists []. rewrite app_nil_r. reflexivity.
  - eexists. reflexivity.
Qed.

Lemma news_entry_head (t u d : str) :
  exists tail, news_entry t u d = 84 :: tail.
Proof.
  unfold news_entry.
  assert (H : lit "Título: " = [84; 237; 116; 117; 108; 111; 58; 32])
    by (vm_compute; reflexivity).
  rewrite H. eexists. reflexivity.
Qed.

(** Whatever the loop returns, it only ever adds blocks. *)
Lemma collect_heads (rs : list record) :
  forall acc seen blocks,
    Forall (fun b => head b = Some 84) acc ->
    collect rs acc seen = Return blocks ->
    Forall (fun b => head b = Some 84) blocks.
Proof.
  induction rs as [|r rs IH]; intros acc seen blocks Hacc; cbn [collect].
  - intros [= <-]. exact Hacc.
  - destruct (getitem r (lit "href")) as [h|e]; [|discriminate].
    destruct (decide (h ∈ seen)); [apply IH, Hacc|].
    destruct (getitem r (lit "title")) as [t|e]; [|discriminate].
    destruct (getitem r (lit "body")) as [d|e]; [|discriminate].
    apply IH. apply Forall_app. split; [exact Hacc|].
    apply Forall_cons. split; [|constructor].
    destruct (news_entry_head t h d) as [tail ->]. reflexivity.
Qed.

(** The loop keeps what it already has. *)
Lemma collect_extends (rs : list record) :
  forall acc seen blocks,
    collect rs acc seen = Return blocks -> exists more, blocks = acc ++ more.
Proof.
  induction rs as [|r rs IH]; intros acc seen blocks; cbn [collect].
  - intros [= <-]. exists []. rewrite app_nil_r. reflexivity.
  - destruct (getitem r (lit "href")) as [h|e]; [|discriminate].
    destruct (decide (h ∈ seen)); [apply IH|].
    destruct (getitem r (lit "title")) as [t|e]; [|discriminate].
    destruct (getitem r (lit "body")) as [d|e]; [|discriminate].
    intros H. apply IH in H as [more ->]. rewrite <- app_assoc.
    eexists. reflexivity.
Qed.

Section WithProvider.

Variable current_date : str.
Variable ddgs_text : nat -> str -> result (list record).

(** The body never raises, so the decorator returns what the first
    attempt returns: one request, no wait. *)
Lemma search_web_single_attempt (query : str) (st : state) :
  exists text st',
    search_web_body current_date ddgs_text query st = (Return text, st')
    /\ search_web current_date ddgs_text query st = (Returned text, st')
    /\ requests st' = S (requests st)
    /\ slept st' = slept st.
Proof.
  assert (Hbody : exists text st',
    search_web_body current_date ddgs_text query st = (Return text, st')
    /\ requests st' = S (requests st) /\ slept st' = slept st).
  { unfold search_web_body, try_except, search_web_try, bind, request,
      search_web_except, logging_error, ret, raise.
    destruct (ddgs_text (requests st) (query ++ lit " after:" ++ current_date))
      as [[|r rs]|e]; cbn [requests slept log].
    - eexists _, _. split; [reflexivity|]. split; reflexivity.
    - destruct (collect (r :: rs) [] ∅) as [blocks|e].
      + eexists _, _. split; [reflexivity|]. split; reflexivity.
      + eexists _, _. split; [reflexivity|]. split; reflexivity.
    - eexists _, _. split; [reflexivity|]. split; reflexivity. }
  destruct Hbody as [text [st' [Hb [Hr Hs]]]].
  exists text, st'. split; [exact Hb|]. split; [|split; assumption].
  unfold search_web, retry. cbn [Nat.pred retry_from]. rewrite Hb. reflexivity.
Qed.

Lemma search_web_of_try (query text : str) (st st' : state) :
  search_web_try current_date ddgs_text query st = (Return text, st') ->
  search_web current_date ddgs_text query st = (Returned text, st').
Proof.
  intros H. unfold search_web, retry. cbn [Nat.pred retry_from].
  unfold search_web_body, try_except. rewrite H. reflexivity.
Qed.

(** The output on an empty result list. *)
Lemma search_web_empty (query : str) (st : state) :
  ddgs_text (requests st) (query ++ lit " after:" ++ current_date) = Return [] ->
  search_web current_date ddgs_text query st
  = (Returned no_results, mkState (S (requests st)) (slept st) (log st)).
Proof.
  intros Hp. apply search_web_of_try.
  unfold search_web_try, bind, request. rewrite Hp. reflexivity.
Qed.

(** The output on a non-empty list of complete records. *)
Lemma search_web_blocks (query : str) (st : state) (r : record)
    (rs : list record) :
  ddgs_text (requests st) (query ++ lit " after:" ++ current_date)
    = Return (r :: rs) ->
  Forall complete (r :: rs) ->
  first_seen ∅ (r :: rs) = r :: first_seen {[href r]} rs
  /\ search_web current_date ddgs_text query st
     = (Returned (join (nl ++ nl) (block <$> first_seen ∅ (r :: rs))),
        mkState (S (requests st)) (slept st) (log st)).
Proof.
  intros Hp Hc.
  assert (Hfs : first_seen ∅ (r :: rs) = r :: first_seen {[href r]} rs).
  { cbn [first_seen]. destruct (decide (href r ∈ (∅ : gset str))) as [Hin|_].
    - apply not_elem_of_empty in Hin. contradiction.
    - rewrite (right_id_L ∅ (∪)). reflexivity. }
  split; [exact Hfs|]. apply search_web_of_try.
  unfold search_web_try, bind, request. rewrite Hp.
  rewrite (collect_first_seen (r :: rs) [] ∅ Hc). rewrite app_nil_l, Hfs.
  reflexivity.
Qed.

(** The three shapes of the output: an error line, the no-results
    sentinel, or a join of at least one block. *)
Lemma search_web_output_cases (query : str) (st : state) :
  exists text,
    fst (search_web current_date ddgs_text query st) = Returned text
    /\ ((exists e, text = lit "Erro na pesquisa: " ++ str_exn e)
        \/ (ddgs_text (requests st) (query ++ lit " after:" ++ current_date)
             = Return [] /\ text = no_results)
        \/ (exists b bs, text = join (nl ++ nl) (b :: bs)
                         /\ head b = Some 84)).
Proof.
  unfold search_web, retry. cbn [Nat.pred retry_from].
  unfold search_web_body, try_except, search_web_try, bind, request,
    search_web_except, logging_error, ret, raise.
  destruct (ddgs_text (requests st) (query ++ lit " after:" ++ current_date))
    as [[|r rs]|e] eqn:Hp.
  - eexists. split; [reflexivity|]. right. left. split; reflexivity.
  - destruct (collect (r :: rs) [] ∅) as [blocks|e] eqn:Hc.
    + pose proof (collect_heads _ _ _ _ (Forall_nil_2 _) Hc) as Hheads.
      assert (Hne : blocks <> []).
      { intros ->. revert Hc. cbn [collect].
        destruct (getitem r (lit "href")) as [h|e]; [|discriminate].
        destruct (decide (h ∈ (∅ : gset str))) as [Hin|_];
          [apply not_elem_of_empty in Hin; contradiction|].
        destruct (getitem r (lit "title")) as [t|e]; [|discriminate].
        destruct (getitem r (lit "body")) as [d|e]; [|discriminate].
        intros Hc. apply collect_extends in Hc as [more Hmore].
        destruct more; discriminate Hmore. }
      destruct blocks as [|b bs]; [contradiction|].
      eexists. split; [reflexivity|]. right. right. exists b, bs.
      split; [reflexivity|]. apply Forall_cons in Hheads as [Hb _]. exact Hb.
    + eexists. split; [reflexivity|]. left. exists e. reflexivity.
  - eexists. split; [reflexivity|]. left. exists e. reflexivity.
Qed.

End WithProvider.

End SearchFacts.

(** ** [validate_input] *)

(** C6. For every raw string, [validate_input] raises the too-short
    [ValueError] when the trimmed length is below 5, raises the too-long
    [ValueError] when the raw length exceeds 500 (the trimmed length being
    at least 5), and otherwise returns the trimmed string escaped; it is a
    function of its argument alone. *)
Theorem validate_input_contract (query : str) :
  ((length (strip query) < 5)%nat ->
     validate_input query = Raise (ValueError too_short_msg))
  /\ ((5 <= length (strip query))%nat ->
      (MAX_QUERY_LENGTH < length query)%nat ->
      validate_input query = Raise (ValueError too_long_msg))
  /\ ((5 <= length (strip query))%nat ->
      (length query <= MAX_QUERY_LENGTH)%nat ->
      validate_input query = Return (Html.escape (strip query))).
Proof.
  unfold validate_input.
  destruct (Nat.ltb_spec (length (strip query)) 5) as [Hshort|Hok].
  - rewrite orb_true_r. split; [|split]; intros; [reflexivity | lia | lia].
  - assert (Hq : truthy query = true).
    { destruct query; [simpl in Hok; lia | reflexivity]. }
    rewrite Hq. simpl.
    destruct (Nat.ltb_spec MAX_QUERY_LENGTH (length query)) as [Hlong|Hfit];
      (split; [|split]); intros; first [reflexivity | lia].
Qed.

Lemma validate_input_contract_witness :
  validate_input (lit "  IA  ") = Raise (ValueError too_short_msg)
  /\ validate_input (lit "  a<b & c  ") = Return (lit "a&lt;b &amp; c").
Proof.
  split.
  - apply (proj1 (validate_input_contract (lit "  IA  "))).
    vm_compute. lia.
  - apply (proj2 (proj2 (validate_input_contract (lit "  a<b & c  ")))).
    + vm_compute. lia.
    + vm_compute. lia.
Defined.

(** C2, as the code has it. For every input whose trimmed length is at
    least 5 and whose raw length is at most 500, [validate_input] returns
    the escaped trimmed input: the trimmed input is the input without the
    whitespace at its two ends, and reading the entities back gives it
    again. *)
Theorem validate_input_accepts (query : str) :
  (5 <= length (strip query))%nat ->
  (length query <= MAX_QUERY_LENGTH)%nat ->
  exists clean,
    validate_input query = Return clean
    /\ clean = Html.escape (strip query)
    /\ Html.unescape clean = strip query
    /\ (exists l r, query = l ++ strip query ++ r
                    /\ forallb isspace l = true /\ forallb isspace r = true)
    /\ (forall c, head (strip query) = Some c -> isspace c = false)
    /\ (forall c, last (strip query) = Some c -> isspace c = false).
Proof.
  intros Hmin Hmax. exists (Html.escape (strip query)).
  destruct (strip_spec query) as [Hsplit [Hhead Hlast]].
  split; [|split; [reflexivity|split; [apply unescape_escape|]]].
  - unfold validate_input.
    assert (Hq : truthy query = true).
    { destruct query; [simpl in Hmin; lia | reflexivity]. }
    rewrite Hq. simpl.
    destruct (Nat.ltb_spec (length (strip query)) 5); [lia|].
    destruct (Nat.ltb_spec MAX_QUERY_LENGTH (length query)); [lia|].
    reflexivity.
  - repeat split; assumption.
Qed.

Lemma validate_input_accepts_witness :
  exists clean,
    validate_input (lit "  a<b & c  ") = Return clean
    /\ clean = lit "a&lt;b &amp; c"
    /\ Html.unescape clean = lit "a<b & c".
Proof.
  destruct (validate_input_accepts (lit "  a<b & c  ")) as [clean [H1 [H2 [H3 _]]]].
  - vm_compute. lia.
  - vm_compute. lia.
  - exists clean. split; [exact H1|]. split; [exact H2 | exact H3].
Defined.

(** C2 as stated fails: 500 letters followed by one blank trim to length
    500, and the raw length 501 is rejected. *)
Lemma validate_input_rejects_padded_500 :
  length (strip (replicate 500 97 ++ [32])) = 500%nat
  /\ validate_input (replicate 500 97 ++ [32]) = Raise (ValueError too_long_msg).
Proof. split; vm_compute; reflexivity. Qed.

(** ** [search_web] *)

(** Closes [Forall Spec.complete l] on a list of literal records. *)
Ltac all_complete :=
  repeat (apply Forall_cons; split;
          [vm_compute; repeat split; eexists; reflexivity|]);
  apply Forall_nil_2.

Section SearchWeb.

Import Search Spec.

(** C1, evaluated where it fails. The first request times out and the
    second would answer: [search_web] returns the error line after one
    request and no wait, with the error logged; the same decorator around
    the [try] block alone makes the second request after one wait and
    returns the results. *)
Theorem search_web_does_not_retry :
  search_web Sample.date Sample.flaky (lit "ia") initial
  = (Returned (lit "Erro na pesquisa: timeout"),
     mkState 1 0 [lit "ERROR:root:Erro na pesquisa: timeout"])
  /\ retry 3 1 (search_web_try Sample.date Sample.flaky (lit "ia")) initial
     = (Returned (join (nl ++ nl) (block <$> first_seen ∅ Sample.three_results)),
        mkState 2 1 []).
Proof. split; vm_compute; reflexivity. Qed.

(** C3, as the code has it. Every record that survives deduplication is
    written as the three lines title, url, description, in which the title
    and the description are escaped and the url is written as received. *)
Theorem search_web_block_format (date : str)
    (provider : nat -> str -> result (list record)) (query : str)
    (st : state) (r : record) (rs : list record) :
  provider (requests st) (query ++ lit " after:" ++ date) = Return (r :: rs) ->
  Forall complete (r :: rs) ->
  exists blocks,
    fst (search_web date provider query st) = Returned (join (nl ++ nl) blocks)
    /\ Forall2
         (fun x b =>
            b = lit "Título: " ++ Html.escape (title x) ++ nl
                ++ lit "URL: " ++ href x ++ nl
                ++ lit "Descrição: " ++ Html.escape (body x) ++ nl)
         (first_seen ∅ (r :: rs)) blocks.
Proof.
  intros Hp Hc.
  destruct (search_web_blocks date provider query st r rs Hp Hc) as [_ Hout].
  exists (block <$> first_seen ∅ (r :: rs)). split.
  - rewrite Hout. reflexivity.
  - apply Forall2_fmap_r, Forall_Forall2_diag, Forall_forall.
    intros x _. reflexivity.
Qed.

Lemma search_web_block_format_witness :
  exists blocks,
    fst (search_web Sample.date Sample.steady (lit "ia") initial)
    = Returned (join (nl ++ nl) blocks)
    /\ length blocks = 2%nat.
Proof.
  destruct (search_web_block_format Sample.date Sample.steady (lit "ia") initial
              (mk_record (lit "A & B") (lit "http://x/?a=1&b=2") (lit "first <b>"))
              [mk_record (lit "C") (lit "http://y") (lit "second");
               mk_record (lit "D") (lit "http://x/?a=1&b=2") (lit "third")])
    as [blocks [Hout Hblocks]].
  - reflexivity.
  - all_complete.
  - exists blocks. split; [exact Hout|].
    apply Forall2_length in Hblocks. rewrite <- Hblocks.
    vm_compute. reflexivity.
Defined.

(** C3 as stated fails: the url is not escaped. The ampersand of the first
    url reaches the output as it is, while the ampersand of the title and
    the angle brackets of the description are escaped. *)
Lemma search_web_url_not_escaped :
  fst (search_web Sample.date Sample.steady (lit "ia") initial)
  = Returned
      (lit "Título: A &amp; B" ++ nl
       ++ lit "URL: http://x/?a=1&b=2" ++ nl
       ++ lit "Descrição: first &lt;b&gt;" ++ nl
       ++ nl ++ nl
       ++ lit "Título: C" ++ nl
       ++ lit "URL: http://y" ++ nl
       ++ lit "Descrição: second" ++ nl)
  /\ Html.escape (lit "http://x/?a=1&b=2") = lit "http://x/?a=1&amp;b=2".
Proof. split; vm_compute; reflexivity. Qed.

(** C7. On any list of complete records the output is the join of the
    blocks of the kept records (the no-results sentinel on the empty list);
    the kept records carry pairwise distinct urls, stand in provider order,
    cover every url of the list, and each is the first record of the list
    with its url. *)
Theorem search_web_dedup (date : str)
    (provider : nat -> str -> result (list record)) (query : str)
    (st : state) (results : list record) :
  provider (requests st) (query ++ lit " after:" ++ date) = Return results ->
  Forall complete results ->
  fst (search_web date provider query st)
  = Returned (match results with
              | [] => no_results
              | _ :: _ => join (nl ++ nl) (block <$> first_seen ∅ results)
              end)
  /\ NoDup (href <$> first_seen ∅ results)
  /\ sublist (first_seen ∅ results) results
  /\ (forall x, x ∈ results -> href x ∈ href <$> first_seen ∅ results)
  /\ (forall x, x ∈ first_seen ∅ results ->
        exists pre post, results = pre ++ x :: post /\ href x ∉ href <$> pre).
Proof.
  intros Hp Hc. split; [|split; [|split; [|split]]].
  - destruct results as [|r rs].
    + rewrite (search_web_empty date provider query st Hp). reflexivity.
    + destruct (search_web_blocks date provider query st r rs Hp Hc) as [_ ->].
      reflexivity.
  - apply first_seen_NoDup.
  - apply first_seen_sublist.
  - intros x Hx. destruct (first_seen_covers results ∅ x Hx) as [H|H];
      [apply not_elem_of_empty in H; contradiction | exact H].
  - intros x Hx. exact (first_seen_first results ∅ x Hx).
Qed.

Lemma search_web_dedup_witness :
  fst (search_web Sample.date Sample.steady (lit "ia") initial)
  = Returned (join (nl ++ nl) (block <$> first_seen ∅ Sample.three_results))
  /\ (href <$> first_seen ∅ Sample.three_results)
     = [lit "http://x/?a=1&b=2"; lit "http://y"].
Proof.
  split.
  - apply (search_web_dedup Sample.date Sample.steady (lit "ia") initial
             Sample.three_results).
    + reflexivity.
    + all_complete.
  - vm_compute. reflexivity.
Defined.

(** C8. When the provider returns no result, [search_web] returns the
    sentinel [Nenhum resultado encontrado.], which is not the empty string;
    and on no answer of the provider at all is its output empty. *)
Theorem search_web_no_results (date : str)
    (provider : nat -> str -> result (list record)) (query : str)
    (st : state) :
  provider (requests st) (query ++ lit " after:" ++ date) = Return [] ->
  fst (search_web date provider query st) = Returned no_results
  /\ no_results = lit "Nenhum resultado encontrado."
  /\ no_results <> []
  /\ (forall other q st',
        fst (search_web date other q st') <> Returned []).
Proof.
  intros Hp. split; [|split; [reflexivity|split; [discriminate|]]].
  - rewrite (search_web_empty date provider query st Hp). reflexivity.
  - intros other q st' H.
    destruct (search_web_output_cases date other q st') as [text [Hout Hcases]].
    rewrite Hout in H. injection H as ->.
    destruct Hcases as [[e He]|[[_ He]|[b [bs [He Hb]]]]].
    + vm_compute in He. discriminate He.
    + discriminate He.
    + destruct (join_cons (nl ++ nl) b bs) as [tail Ht]. rewrite Ht in He.
      destruct b; [discriminate Hb | discriminate He].
Qed.

Lemma search_web_no_results_witness :
  fst (search_web Sample.date Sample.silent (lit "ia") initial)
  = Returned no_results.
Proof.
  exact (proj1 (search_web_no_results Sample.date Sample.silent (lit "ia")
                  initial eq_refl)).
Defined.



End SearchWeb.

(** ** Facts about the pipeline *)

Section AppFacts.

Import App Spec.
Local Open Scope app_scope.

(** The streaming loop appends the texts in order and shows each running
    buffer with the cursor; nothing else changes. *)
Lemma consume_spec (chunks : list chunk) :
  forall buffer st,
    consume chunks buffer st
    = (buffer ++ concat (texts chunks),
       mkState (trace st) (log st) (cache st) (session_state st)
         (page st
          ++ ((fun b => Placeholder (b ++ cursor))
                <$> buffers buffer (texts chunks)))).
Proof.
  induction chunks as [|c chunks IH]; intros buffer st.
  - destruct st. cbn. rewrite !app_nil_r. reflexivity.
  - cbn [consume]. unfold texts. cbn [omap list_omap].
    destruct (chunk_text c) as [t|].
    + fold (texts chunks). rewrite IH. cbn. rewrite <- !app_assoc.
      reflexivity.
    + fold (texts chunks). apply IH.
Qed.

(** The final display adds elements to the page and changes nothing else. *)
Lemma show_article_frame (st : state) :
  session_state (show_article st) = session_state st
  /\ log (show_article st) = log st
  /\ exists more, page (show_article st) = page st ++ more.
Proof.
  unfold show_article. destruct (truthy (article st)).
  - cbn. repeat split. rewrite <- !app_assoc. eexists. reflexivity.
  - repeat split. exists []. rewrite app_nil_r. reflexivity.
Qed.

Lemma article_init_article (st : state) :
  article (init_article st) = article st.
Proof.
  unfold init_article, article.
  destruct (session_state st !! article_key) eqn:H; [rewrite H; reflexivity|].
  cbn [session_state set_session_state]. rewrite lookup_insert_eq. reflexivity.
Qed.

Lemma init_article_frame (st : state) :
  trace (init_article st) = trace st /\ log (init_article st) = log st
  /\ cache (init_article st) = cache st /\ page (init_article st) = page st.
Proof.
  unfold init_article. destruct (session_state st !! article_key);
    repeat split.
Qed.

Lemma show_article_keeps (st : state) :
  trace (show_article st) = trace st /\ cache (show_article st) = cache st
  /\ article (show_article st) = article st.
Proof.
  unfold show_article. destruct (truthy (article st)); repeat split.
Qed.

(** What the final display adds when there is an article. *)
Lemma show_article_button (st : state) :
  article st <> [] ->
  page (show_article st)
  = page st ++ [Subheader (lit "Seu Artigo Pronto"); Markdown (article st);
                DownloadButton (article st) (lit "artigo_llm.md")
                  (lit "text/markdown")].
Proof.
  intros Hne. unfold show_article.
  destruct (article st) as [|c a] eqn:Ha; [contradiction|].
  cbn. rewrite <- !app_assoc. reflexivity.
Qed.

(** One call of the search tool leaves the log as it was or adds one
    error line of [search_web]. *)
Lemma search_web_log_line (c : tool_call) (log : list str) :
  search_web_log c log = log
  \/ exists e,
       search_web_log c log
       = log ++ [lit "ERROR:root:" ++ lit "Erro na pesquisa: " ++ str_exn e].
Proof.
  unfold search_web_log, Search.search_web, Search.retry.
  cbn [Nat.pred Search.retry_from].
  unfold Search.search_web_body, Search.try_except, Search.search_web_try,
    Search.bind, Search.request, Search.search_web_except,
    Search.logging_error, Search.ret, Search.raise.
  cbn [Search.requests Search.slept Search.log].
  destruct (tool_answer c) as [[|r rs]|e].
  - left. reflexivity.
  - destruct (Search.collect (r :: rs) [] ∅) as [blocks|e].
    + left. reflexivity.
    + right. exists e. reflexivity.
  - right. exists e. reflexivity.
Qed.

(** The tool calls of an invocation only ever add error lines of
    [search_web] to the log. *)
Lemma run_tools_extends (fs : list tool) (calls : list tool_call) :
  forall log,
    exists lines,
      run_tools fs calls log = log ++ lines
      /\ Forall More.search_error_line lines.
Proof.
  unfold run_tools. destruct fs as [|[] fs].
  - intros log. exists []. rewrite app_nil_r. split; [reflexivity|constructor].
  - induction calls as [|c calls IH]; intros log.
    + exists []. rewrite app_nil_r. split; [reflexivity|constructor].
    + cbn [fold_left].
      destruct (search_web_log_line c log) as [->|[e ->]].
      * apply IH.
      * destruct (IH (log ++ [lit "ERROR:root:" ++ lit "Erro na pesquisa: "
                               ++ str_exn e])) as [lines [-> Hl]].
        eexists. rewrite <- app_assoc. split; [reflexivity|].
        apply Forall_cons. split; [exists e; reflexivity | exact Hl].
Qed.

Section WithClient.

Variable client_run : nat -> Agent -> list Message -> result (list Message).
Variable client_tools : nat -> Agent -> list Message -> list tool_call.
Variable client_stream :
  nat -> Agent -> list Message -> list chunk * option exn.

Ltac step_run :=
  match goal with
  | |- context [client_run ?i ?a ?m] =>
      let H := fresh "Hrun" in destruct (client_run i a m) eqn:H
  | |- context [last_content ?m] =>
      let H := fresh "Hlast" in destruct (last_content m) eqn:H
  end.

Ltac unfold_body :=
  unfold process_research_body, try_except, process_research_try, bind, run,
    lift, debug_step, DEBUG_MODE, ret, logging_error, act, raise.

Ltac state_step :=
  cbn [trace set_trace set_log log cache session_state page run_tools
       functions researcher_agent writer_agent].

(** What the undecorated function leaves behind. Only the search stage
    can call the tool, so the log is the one after its tool calls, with
    the error line of [process_research] added when the run fails; the
    cache, the session state and the page are not touched. *)
Lemma process_research_body_outcome (query : str) (st : state) :
  match process_research_body client_run client_tools query st with
  | (Return _, st') =>
      exists m2 m3,
        st' = mkState
                (trace st
                 ++ [mkInvocation web_search_agent
                       [user (lit "Pesquise sobre: " ++ query)] false;
                     mkInvocation researcher_agent m2 false;
                     mkInvocation writer_agent m3 false])
                (run_tools (functions web_search_agent)
                   (client_tools (length (trace st)) web_search_agent
                      [user (lit "Pesquise sobre: " ++ query)]) (log st))
                (cache st) (session_state st) (page st)
  | (Raise e, st') =>
      exists more,
        st' = mkState
                (trace st
                 ++ mkInvocation web_search_agent
                      [user (lit "Pesquise sobre: " ++ query)] false :: more)
                (run_tools (functions web_search_agent)
                   (client_tools (length (trace st)) web_search_agent
                      [user (lit "Pesquise sobre: " ++ query)]) (log st)
                 ++ [More.processing_error_line e])
                (cache st) (session_state st) (page st)
        /\ (length more <= 2)%nat
  end.
Proof.
  unfold_body. repeat (step_run; state_step);
    rewrite <- ?app_assoc;
    first [ eexists _, _; reflexivity
          | eexists; split; [reflexivity | cbn; lia] ].
Qed.

(** A successful run of the undecorated function is the three invocations
    in order; it can add error lines of the search tool to the log and
    touches nothing else. *)
Lemma process_research_body_success (query draft : str) (st st' : state) :
  process_research_body client_run client_tools query st = (Return draft, st') ->
  (exists m2 m3,
     trace st'
     = trace st
       ++ [mkInvocation web_search_agent
             [user (lit "Pesquise sobre: " ++ query)] false;
           mkInvocation researcher_agent m2 false;
           mkInvocation writer_agent m3 false])
  /\ (exists lines,
        log st' = log st ++ lines /\ Forall More.search_error_line lines)
  /\ cache st' = cache st
  /\ session_state st' = session_state st
  /\ page st' = page st.
Proof.
  intros Hb. pose proof (process_research_body_outcome query st) as Ho.
  rewrite Hb in Ho. destruct Ho as [m2 [m3 ->]]. cbn [trace log cache session_state page].
  split; [exists m2, m3; reflexivity|].
  split; [apply run_tools_extends|]. repeat split.
Qed.

(** A failed run of the undecorated function logs its error last, after
    whatever the search tool logged, starts with the search invocation,
    makes at most three, and touches neither the cache, the session state
    nor the page. *)
Lemma process_research_body_failure (query : str) (e : exn) (st st' : state) :
  process_research_body client_run client_tools query st = (Raise e, st') ->
  (exists lines,
     log st' = log st ++ lines ++ [More.processing_error_line e]
     /\ Forall More.search_error_line lines)
  /\ cache st' = cache st
  /\ session_state st' = session_state st
  /\ page st' = page st
  /\ exists more,
       trace st'
       = trace st
         ++ mkInvocation web_search_agent
              [user (lit "Pesquise sobre: " ++ query)] false :: more
       /\ (length more <= 2)%nat.
Proof.
  intros Hb. pose proof (process_research_body_outcome query st) as Ho.
  rewrite Hb in Ho. destruct Ho as [more [-> Hlen]].
  cbn [trace log cache session_state page].
  split.
  - destruct (run_tools_extends (functions web_search_agent)
                (client_tools (length (trace st)) web_search_agent
                   [user (lit "Pesquise sobre: " ++ query)]) (log st))
      as [lines [-> Hl]].
    exists lines. rewrite <- app_assoc. split; [reflexivity | exact Hl].
  - repeat split. exists more. split; [reflexivity | exact Hlen].
Qed.

(** The decorator answers from a live entry without running anything. *)
Lemma process_research_hit (now stored : N) (query draft : str) (st : state) :
  cache st !! query = Some (draft, stored) ->
  now < stored + CACHE_TIME ->
  process_research client_run client_tools now query st = (Return draft, st).
Proof.
  intros Hc Hlt. unfold process_research, cache_data. rewrite Hc.
  apply N.ltb_lt in Hlt. rewrite Hlt. reflexivity.
Qed.

(** Without a live entry the undecorated function runs, and its value is
    stored with the current time. *)
Lemma process_research_miss (now : N) (query : str) (st : state) :
  (forall v stored, cache st !! query = Some (v, stored) ->
                    stored + CACHE_TIME <= now) ->
  process_research client_run client_tools now query st
  = match process_research_body client_run client_tools query st with
    | (Return v, st') =>
        (Return v, set_cache (<[query := (v, now)]> (cache st')) st')
    | (Raise e, st') => (Raise e, st')
    end.
Proof.
  intros Hold. unfold process_research, cache_data.
  destruct (cache st !! query) as [[v stored]|] eqn:Hc; [|reflexivity].
  specialize (Hold v stored eq_refl). apply N.ltb_ge in Hold.
  rewrite Hold. reflexivity.
Qed.

(** [process_research] never touches the session state or the page. To
    the log it can add error lines of the search tool, followed by its own
    error line when it raises, and then nothing is cached. *)
Lemma process_research_frame (now : N) (query : str) (st : state) :
  match process_research client_run client_tools now query st with
  | (Return _, st') =>
      (exists lines,
         log st' = log st ++ lines /\ Forall More.search_error_line lines)
      /\ session_state st' = session_state st /\ page st' = page st
  | (Raise e, st') =>
      (exists lines,
         log st' = log st ++ lines ++ [More.processing_error_line e]
         /\ Forall More.search_error_line lines)
      /\ session_state st' = session_state st /\ page st' = page st
      /\ cache st' = cache st
      /\ process_research_body client_run client_tools query st = (Raise e, st')
  end.
Proof.
  unfold process_research, cache_data.
  assert (Hrun :
    match
      match process_research_body client_run client_tools query st with
      | (Return v, st') =>
          (Return v, set_cache (<[query := (v, now)]> (cache st')) st')
      | (Raise e, st') => (Raise e, st')
      end
    with
    | (Return _, st') =>
        (exists lines,
           log st' = log st ++ lines /\ Forall More.search_error_line lines)
        /\ session_state st' = session_state st /\ page st' = page st
    | (Raise e, st') =>
        (exists lines,
           log st' = log st ++ lines ++ [More.processing_error_line e]
           /\ Forall More.search_error_line lines)
        /\ session_state st' = session_state st /\ page st' = page st
        /\ cache st' = cache st
        /\ process_research_body client_run client_tools query st = (Raise e, st')
    end).
  { destruct (process_research_body client_run client_tools query st)
      as [[v|e] st'] eqn:Hb.
    - apply process_research_body_success in Hb as [_ [Hl [_ [Hs Hp]]]].
      cbn [log session_state page set_cache]. repeat split; assumption.
    - pose proof (process_research_body_failure _ _ _ _ Hb)
        as [Hl [Hc [Hs [Hp _]]]].
      repeat split; assumption. }
  destruct (cache st !! query) as [[v stored]|]; [|exact Hrun].
  destruct (now <? stored + CACHE_TIME); [|exact Hrun].
  split; [|split; reflexivity].
  exists []. rewrite app_nil_r. split; [reflexivity | constructor].
Qed.

(** The proofreading step adds its one streaming invocation and leaves the
    log and the cache alone; the session state changes only when the
    stream ends well. *)
Lemma proofread_frame (draft : str) (st : state) :
  exists r st',
    proofread client_tools client_stream draft st = (r, st')
    /\ trace st'
       = trace st
         ++ [mkInvocation proofreader_agent
               [user (lit "Revise:" ++ nl ++ draft)] true]
    /\ log st' = log st /\ cache st' = cache st
    /\ match snd (client_stream (length (trace st)) proofreader_agent
                    [user (lit "Revise:" ++ nl ++ draft)]) with
       | None =>
           r = Return tt
           /\ session_state st'
              = <[article_key :=
                    concat (texts (fst (client_stream (length (trace st))
                                          proofreader_agent
                                          [user (lit "Revise:" ++ nl ++ draft)])))]>
                  (session_state st)
       | Some e => r = Raise e /\ session_state st' = session_state st
       end.
Proof.
  unfold proofread, bind, run_stream.
  destruct (client_stream (length (trace st)) proofreader_agent
              [user (lit "Revise:" ++ nl ++ draft)]) as [chunks [e|]];
    cbn [fst snd]; rewrite consume_spec; cbn;
    eexists _, _; (split; [reflexivity|]); cbn; repeat split.
Qed.

(** A stage that raises makes the undecorated function raise the same
    exception. *)
Lemma stage_raises_body (query : str) (e : exn) (st : state) :
  More.stage_raises client_run (length (trace st)) query e ->
  exists st',
    process_research_body client_run client_tools query st = (Raise e, st').
Proof.
  unfold More.stage_raises.
  intros [H1|[r1 [raw [H1 [L1 [H2|[r2 [clean [H2 [L2 H3]]]]]]]]]];
    unfold_body; rewrite H1; cbv beta iota; state_step.
  - eexists. reflexivity.
  - rewrite L1. cbv beta iota. rewrite length_app. cbn [length].
    rewrite H2. cbv beta iota. state_step. eexists. reflexivity.
  - rewrite L1. cbv beta iota. rewrite length_app. cbn [length].
    rewrite H2. cbv beta iota. state_step. rewrite L2. cbv beta iota.
    rewrite !length_app. cbn [length]. rewrite H3. cbv beta iota.
    state_step. eexists. reflexivity.
Qed.

(** The submit branch once the draft is there: the proofreading step
    decides between the completion notice and the failure message. *)
Lemma submit_after_research (now : N)
    (query clean draft : str) (st s1 : state) :
  validate_input query = Return clean ->
  process_research client_run client_tools now clean
    (show (Write (lit "🔍 Realizando pesquisa web...")) st) = (Return draft, s1) ->
  exists r s2,
    proofread client_tools client_stream draft
      (show (Write (lit "✍️ Gerando artigo em tempo real...")) s1) = (r, s2)
    /\ submit client_run client_tools client_stream now query st
       = (Return tt,
          match r with
          | Return _ => show (StatusComplete (lit "Artigo completo! ✅")) s2
          | Raise e => show (Error (lit "Erro: " ++ str_exn e)) s2
          end).
Proof.
  intros Hval Hres.
  destruct (proofread client_tools client_stream draft
              (show (Write (lit "✍️ Gerando artigo em tempo real...")) s1))
    as [r s2] eqn:Hp.
  exists r, s2. split; [reflexivity|].
  unfold submit, try_except, submit_try, bind, lift, act.
  rewrite Hval. cbv beta iota. rewrite Hres. cbv beta iota. rewrite Hp.
  destruct r; reflexivity.
Qed.

End WithClient.

End AppFacts.

(** ** The streaming loop and the run *)

Section Pipeline.

Import App Spec.
Local Open Scope app_scope.

(** C4. When the proofreading stream ends, the Article is the
    concatenation, in arrival order, of the texts of the chunks that carry
    text (a content that is a non-empty string); the page showed each
    running buffer followed by the cursor and last the buffer alone; a
    chunk without text leaves the loop where it was; and the chunks
    ["Ol", "á, ", "mundo"] give "Olá, mundo". *)
Theorem streaming_assembly
    (client_tools : nat -> Agent -> list Message -> list tool_call)
    (client_stream : nat -> Agent -> list Message -> list chunk * option exn)
    (draft : str) (st : state) (chunks : list chunk) :
  client_stream (length (trace st)) proofreader_agent
    [user (lit "Revise:" ++ nl ++ draft)] = (chunks, None) ->
  (exists st',
     proofread client_tools client_stream draft st = (Return tt, st')
     /\ article st' = concat (texts chunks)
     /\ page st'
        = page st
          ++ ((fun b => Placeholder (b ++ cursor)) <$> buffers [] (texts chunks))
          ++ [Placeholder (concat (texts chunks))])
  /\ (forall c t, chunk_text c = Some t
                  <-> c !! lit "content" = Some (VStr t) /\ t <> [])
  /\ (forall c rest buffer s,
        chunk_text c = None ->
        consume (c :: rest) buffer s = consume rest buffer s)
  /\ fst (consume Sample.ola_chunks [] st) = lit "Olá, mundo".
Proof.
  intros Hs. split; [|split; [|split]].
  - unfold proofread, bind, run_stream. rewrite Hs.
    cbn [fst snd]. rewrite consume_spec. cbn.
    eexists. split; [reflexivity|]. split.
    + unfold article. cbn. rewrite lookup_insert_eq. reflexivity.
    + cbn. rewrite <- app_assoc. reflexivity.
  - intros c t. unfold chunk_text.
    destruct (c !! lit "content") as [[|s0]|].
    + split; [discriminate | intros [H _]; discriminate H].
    + destruct s0 as [|a s0]; cbn.
      * split; [discriminate | intros [[= <-] H]; contradiction].
      * split; [intros [= <-]; split; [reflexivity | discriminate]
               | intros [[= <-] _]; reflexivity].
    + split; [discriminate | intros [H _]; discriminate H].
  - intros c rest buffer s Hc. cbn [consume]. rewrite Hc. reflexivity.
  - rewrite consume_spec. vm_compute. reflexivity.
Qed.

Lemma streaming_assembly_witness :
  exists st',
    proofread Sample.no_tools Sample.ola_stream (lit "rascunho") initial = (Return tt, st')
    /\ article st' = lit "Olá, mundo".
Proof.
  destruct (streaming_assembly Sample.no_tools Sample.ola_stream (lit "rascunho") initial
              (fst (Sample.ola_stream 0 proofreader_agent [])) eq_refl)
    as [[st' [Hrun [Hart _]]] _].
  exists st'. split; [exact Hrun|]. rewrite Hart. vm_compute. reflexivity.
Defined.

(** C5, as the code has it. Take a run whose topic passes validation.
    When one of the three stages of [process_research] raises (no live
    cache entry answering the topic), or when [process_research] has
    returned and the proofreading stream raises after some chunks, the
    page shows the failure message and the Article is the one held before
    the run, empty when there was none; the streaming buffer is not stored.
    The exception of a stage is logged by [process_research] as the last
    line of the log and nothing is cached; the exception of the stream is
    caught in [main], which adds nothing to the log. *)
Theorem failed_run_keeps_article
    (client_run : nat -> Agent -> list Message -> result (list Message))
    (client_tools : nat -> Agent -> list Message -> list tool_call)
    (client_stream : nat -> Agent -> list Message -> list chunk * option exn)
    (now : N) (query clean : str) (st : state) (e : exn) :
  validate_input query = Return clean ->
  ((forall v stored, cache st !! clean = Some (v, stored) ->
                     stored + CACHE_TIME <= now) ->
   More.stage_raises client_run (length (trace st)) clean e ->
   article (main client_run client_tools client_stream now false true query st)
   = article st
   /\ session_state
        (main client_run client_tools client_stream now false true query st)
      = session_state (init_article st)
   /\ Error (lit "Erro: " ++ str_exn e)
        ∈ page (main client_run client_tools client_stream now false true
                  query st)
   /\ cache (main client_run client_tools client_stream now false true query st)
      = cache st
   /\ exists lines,
        log (main client_run client_tools client_stream now false true query st)
        = log st ++ lines ++ [More.processing_error_line e]
        /\ Forall More.search_error_line lines)
  /\ (forall draft s1 chunks,
        process_research client_run client_tools now clean
          (show (Write (lit "🔍 Realizando pesquisa web...")) (init_article st))
          = (Return draft, s1) ->
        client_stream (length (trace s1)) proofreader_agent
          [user (lit "Revise:" ++ nl ++ draft)] = (chunks, Some e) ->
        article
          (main client_run client_tools client_stream now false true query st)
        = article st
        /\ session_state
             (main client_run client_tools client_stream now false true query st)
           = session_state (init_article st)
        /\ Error (lit "Erro: " ++ str_exn e)
             ∈ page (main client_run client_tools client_stream now false true
                       query st)
        /\ log (main client_run client_tools client_stream now false true
                  query st)
           = log s1)
  /\ (session_state st !! article_key = None -> article st = []).
Proof.
  intros Hval.
  assert (Hq : truthy query = true).
  { unfold validate_input in Hval. destruct (truthy query); [reflexivity|].
    discriminate Hval. }
  destruct (init_article_frame st) as [It [Il [Ic Ip]]].
  assert (Hmain : forall s,
            submit client_run client_tools client_stream now query
              (init_article st)
            = (Return tt, show (Error (lit "Erro: " ++ str_exn e)) s) ->
            session_state s = session_state (init_article st) ->
            article
              (main client_run client_tools client_stream now false true query st)
            = article st
            /\ session_state
                 (main client_run client_tools client_stream now false true
                    query st)
               = session_state (init_article st)
            /\ Error (lit "Erro: " ++ str_exn e)
                 ∈ page (main client_run client_tools client_stream now false
                           true query st)
            /\ cache (main client_run client_tools client_stream now false true
                        query st) = cache s
            /\ log (main client_run client_tools client_stream now false true
                      query st) = log s).
  { intros s Hsub Hsess. unfold main, render. rewrite Hq. cbn [andb].
    rewrite Hsub. cbn [snd].
    destruct (show_article_frame (show (Error (lit "Erro: " ++ str_exn e)) s))
      as [Hss [Hsl [more Hsp]]].
    destruct (show_article_keeps (show (Error (lit "Erro: " ++ str_exn e)) s))
      as [_ [Kc Ka]].
    rewrite Ka, Hss, Kc, Hsl, Hsp. cbn [session_state cache log page show].
    split; [|split; [exact Hsess|split; [|split; reflexivity]]].
    - rewrite <- (article_init_article st). unfold article.
      cbn [session_state show]. rewrite Hsess. reflexivity.
    - apply elem_of_app. left. apply elem_of_app. right.
      apply list_elem_of_singleton. reflexivity. }
  split; [|split].
  - intros Hold Hstage.
    destruct (stage_raises_body client_run client_tools clean e
                (show (Write (lit "🔍 Realizando pesquisa web..."))
                   (init_article st))) as [s1 Hbody].
    { cbn [trace show]. rewrite It. exact Hstage. }
    assert (Hres : process_research client_run client_tools now clean
                     (show (Write (lit "🔍 Realizando pesquisa web..."))
                        (init_article st)) = (Raise e, s1)).
    { rewrite process_research_miss; [rewrite Hbody; reflexivity|].
      cbn [cache show]. rewrite Ic. exact Hold. }
    destruct (process_research_body_failure _ _ _ _ _ _ Hbody)
      as [[lines [Hl Hlines]] [Hc [Hs [Hp _]]]].
    cbn [log cache session_state page show] in Hl, Hc, Hs, Hp.
    destruct (Hmain s1) as [Ha [Hss [He [Hca Hlo]]]].
    + unfold submit, try_except, submit_try, bind, lift, act.
      rewrite Hval. cbv beta iota. rewrite Hres. reflexivity.
    + exact Hs.
    + split; [exact Ha|]. split; [exact Hss|]. split; [exact He|].
      split; [rewrite Hca, Hc; exact Ic|].
      exists lines. rewrite Hlo, Hl, Il. split; [reflexivity | exact Hlines].
  - intros draft s1 chunks Hres Hstream.
    pose proof (process_research_frame client_run client_tools now clean
                  (show (Write (lit "🔍 Realizando pesquisa web..."))
                     (init_article st))) as Hframe.
    rewrite Hres in Hframe. destruct Hframe as [_ [Rs _]].
    cbn [session_state show] in Rs.
    destruct (submit_after_research client_run client_tools client_stream now
                query clean draft (init_article st) s1 Hval Hres)
      as [r [s2 [Hp Hsub]]].
    destruct (proofread_frame client_tools client_stream draft
                (show (Write (lit "✍️ Gerando artigo em tempo real...")) s1))
      as [r' [s2' [Hp' [_ [Fl [_ Fs]]]]]].
    rewrite Hp in Hp'. injection Hp' as <- <-.
    cbn [trace log session_state show] in Fl, Fs.
    rewrite Hstream in Fs. cbn [snd] in Fs. destruct Fs as [-> Fs].
    destruct (Hmain s2 Hsub) as [Ha [Hss [He [_ Hlo]]]].
    + rewrite Fs. exact Rs.
    + split; [exact Ha|]. split; [exact Hss|]. split; [exact He|].
      rewrite Hlo. exact Fl.
  - intros Hnone. unfold article. rewrite Hnone. reflexivity.
Qed.

Lemma failed_run_keeps_article_witness :
  (article (main Sample.analysis_down More.one_failed_search Sample.ola_stream
              0 false true Sample.topic initial) = article initial
   /\ exists lines,
        log (main Sample.analysis_down More.one_failed_search Sample.ola_stream
               0 false true Sample.topic initial)
        = log initial ++ lines
          ++ [More.processing_error_line (Exception (lit "model offline"))]
        /\ Forall More.search_error_line lines)
  /\ (article (main Sample.numbered Sample.no_tools Sample.broken_stream
                 0 false true Sample.topic initial) = article initial
      /\ Error (lit "Erro: " ++ str_exn (Exception (lit "connection reset")))
           ∈ page (main Sample.numbered Sample.no_tools Sample.broken_stream
                     0 false true Sample.topic initial)).
Proof.
  split.
  - destruct (failed_run_keeps_article Sample.analysis_down
                More.one_failed_search Sample.ola_stream 0 Sample.topic
                Sample.topic initial (Exception (lit "model offline")))
      as [Hstage _].
    + vm_compute. reflexivity.
    + destruct Hstage as [Ha [_ [_ [_ Hl]]]].
      * intros v stored H. vm_compute in H. discriminate H.
      * right. exists [mkMessage (lit "assistant") (lit "r" ++ str_of_nat 0)],
          (lit "r" ++ str_of_nat 0).
        split; [reflexivity|]. split; [reflexivity|]. left. reflexivity.
      * split; [exact Ha | exact Hl].
  - destruct (failed_run_keeps_article Sample.numbered Sample.no_tools
                Sample.broken_stream 0 Sample.topic Sample.topic initial
                (Exception (lit "connection reset")))
      as [_ [Hstream _]].
    + vm_compute. reflexivity.
    + destruct (Hstream (lit "r2")
                  (snd (process_research Sample.numbered Sample.no_tools 0
                          Sample.topic
                          (show (Write (lit "🔍 Realizando pesquisa web..."))
                             (init_article initial))))
                  (fst (Sample.broken_stream 0 proofreader_agent [])))
        as [Ha [_ [He _]]].
      * vm_compute. reflexivity.
      * reflexivity.
      * split; [exact Ha | exact He].
Defined.

(** C5 as stated fails: when the proofreading stream breaks after two
    chunks, the failure is shown and the Article stays empty, but nothing
    is written to the log. *)
Lemma stream_failure_not_logged :
  log (main Sample.numbered Sample.no_tools Sample.broken_stream 0 false true
         Sample.topic initial) = []
  /\ page (main Sample.numbered Sample.no_tools Sample.broken_stream 0 false
             true Sample.topic initial)
     = [Write (lit "🔍 Realizando pesquisa web...");
        Write (lit "✍️ Gerando artigo em tempo real...");
        Placeholder (lit "Ol▌");
        Placeholder (lit "Olá, ▌");
        Error (lit "Erro: connection reset")]
  /\ article (main Sample.numbered Sample.no_tools Sample.broken_stream 0 false
                true Sample.topic initial) = [].
Proof. repeat split; vm_compute; reflexivity. Qed.

End Pipeline.

(** ** The cache around [process_research] *)

Section Caching.

Import App Spec.

(** C9. Once [process_research] has returned a draft for a topic, the
    cache holds that draft with the time it was stored (the time of the
    call when no live entry answered it). Every later call for the topic
    before that time plus [CACHE_TIME] (one hour, in seconds) returns the
    same draft and leaves the whole state, the trace of invocations
    included, as it was. A call at or after that time runs the undecorated
    function again from its first stage and stores its value; when that run
    returns, it has made the search, the analysis and the draft invocation,
    in this order. *)
Theorem process_research_cached
    (client_run : nat -> Agent -> list Message -> result (list Message))
    (client_tools : nat -> Agent -> list Message -> list tool_call)
    (now1 : N) (query draft : str) (st st1 : state) :
  process_research client_run client_tools now1 query st = (Return draft, st1) ->
  CACHE_TIME = 3600
  /\ exists stored,
       cache st1 !! query = Some (draft, stored)
       /\ ((forall v t, cache st !! query = Some (v, t) ->
                        t + CACHE_TIME <= now1) ->
           stored = now1)
       /\ (forall now2,
             now2 < stored + CACHE_TIME ->
             process_research client_run client_tools now2 query st1 = (Return draft, st1))
       /\ (forall now2,
             stored + CACHE_TIME <= now2 ->
             process_research client_run client_tools now2 query st1
             = match process_research_body client_run client_tools query st1 with
               | (Return v, st2) =>
                   (Return v,
                    set_cache (<[query := (v, now2)]> (cache st2)) st2)
               | (Raise e, st2) => (Raise e, st2)
               end)
       /\ (forall v st2,
             process_research_body client_run client_tools query st1 = (Return v, st2) ->
             exists m2 m3,
               trace st2
               = trace st1
                 ++ [mkInvocation web_search_agent
                       [user (lit "Pesquise sobre: " ++ query)] false;
                     mkInvocation researcher_agent m2 false;
                     mkInvocation writer_agent m3 false]).
Proof.
  intros Hrun. split; [reflexivity|].
  assert (Hentry : exists stored,
    cache st1 !! query = Some (draft, stored)
    /\ ((forall v t, cache st !! query = Some (v, t) -> t + CACHE_TIME <= now1)
        -> stored = now1)).
  { revert Hrun. unfold process_research, cache_data.
    assert (Hfresh :
      match process_research_body client_run client_tools query st with
      | (Return v, st') =>
          (Return v, set_cache (<[query := (v, now1)]> (cache st')) st')
      | (Raise e, st') => (Raise e, st')
      end = (Return draft, st1) ->
      exists stored, cache st1 !! query = Some (draft, stored)
                     /\ ((forall v t, cache st !! query = Some (v, t) ->
                                      t + CACHE_TIME <= now1) -> stored = now1)).
    { destruct (process_research_body client_run client_tools query st) as [[v|e] st'];
        [|discriminate].
      intros [= <- <-]. exists now1. split; [|reflexivity].
      cbn. apply lookup_insert_eq. }
    destruct (cache st !! query) as [[v stored]|] eqn:Hc; [|exact Hfresh].
    destruct (N.ltb_spec now1 (stored + CACHE_TIME)) as [Hlive|Hold];
      [|exact Hfresh].
    intros [= <- <-]. exists stored. split; [exact Hc|].
    intros Hexp. specialize (Hexp v stored eq_refl). lia. }
  destruct Hentry as [stored [Hc Hnew]].
  exists stored. split; [exact Hc|]. split; [exact Hnew|]. split; [|split].
  - intros now2 Hlive.
    exact (process_research_hit client_run client_tools now2 stored query draft st1 Hc Hlive).
  - intros now2 Hexp. apply process_research_miss.
    intros v t Hv. rewrite Hc in Hv. injection Hv as _ <-. exact Hexp.
  - intros v st2 Hb.
    apply process_research_body_success in Hb as [Ht _]. exact Ht.
Qed.

Lemma process_research_cached_witness :
  process_research Sample.numbered Sample.no_tools 3000 Sample.topic
    (snd (process_research Sample.numbered Sample.no_tools 100 Sample.topic initial))
  = (Return (lit "r2"),
     snd (process_research Sample.numbered Sample.no_tools 100 Sample.topic initial))
  /\ length (trace (snd (process_research Sample.numbered Sample.no_tools 100 Sample.topic
                           initial))) = 3%nat
  /\ length (trace (snd (process_research Sample.numbered Sample.no_tools 3700 Sample.topic
                           (snd (process_research Sample.numbered Sample.no_tools 100
                                   Sample.topic initial))))) = 6%nat.
Proof.
  destruct (process_research_cached Sample.numbered Sample.no_tools 100 Sample.topic
              (lit "r2") initial
              (snd (process_research Sample.numbered Sample.no_tools 100 Sample.topic initial)))
    as [_ [stored [_ [Hnew [Hhit _]]]]].
  - vm_compute. reflexivity.
  - assert (Hs : stored = 100).
    { apply Hnew. intros v t Hv. vm_compute in Hv. discriminate Hv. }
    split; [|split; vm_compute; reflexivity].
    apply Hhit. rewrite Hs. vm_compute. reflexivity.
Defined.

End Caching.

(** * Further properties *)

(** ** [search_web]: requests, errors and duplicates *)

Section SearchMore.

Import Search Spec More.

(** On a complete prefix the loop goes on with the blocks and the urls of
    that prefix. *)
Lemma collect_app (pre rest : list record) :
  forall acc seen,
    Forall complete pre ->
    collect (pre ++ rest) acc seen
    = collect rest (acc ++ (block <$> first_seen seen pre))
        (list_to_set (href <$> pre) ∪ seen).
Proof.
  induction pre as [|r pre IH]; intros acc seen Hpre.
  - cbn. rewrite app_nil_r, (left_id_L ∅ (∪)). reflexivity.
  - apply Forall_cons in Hpre as [[Ht [Hh Hb]] Hpre].
    cbn [app collect first_seen]. rewrite (getitem_field r _ Hh).
    change (field r (lit "href")) with (href r).
    destruct (decide (href r ∈ seen)) as [Hin|Hout].
    + rewrite (IH _ _ Hpre). f_equal. rewrite (fmap_cons href).
      cbn [list_to_set]. apply set_eq. intros x. rewrite !elem_of_union, elem_of_singleton.
      split; [tauto|]. intros [[->|H]|H]; [right; exact Hin | tauto | tauto].
    + rewrite (getitem_field r _ Ht), (getitem_field r _ Hb).
      rewrite (IH _ _ Hpre). rewrite (fmap_cons href). cbn [list_to_set].
      rewrite <- app_assoc. f_equal.
      apply set_eq. intros x. rewrite !elem_of_union, elem_of_singleton. tauto.
Qed.

(** Only the first-seen records are read past their href. *)
Lemma collect_first_seen_weak (rs : list record) :
  forall acc seen,
    Forall has_href rs ->
    Forall complete (first_seen seen rs) ->
    collect rs acc seen = Return (acc ++ (block <$> first_seen seen rs)).
Proof.
  induction rs as [|r rs IH]; intros acc seen Hh Hc.
  - cbn. rewrite app_nil_r. reflexivity.
  - apply Forall_cons in Hh as [Hr Hh]. revert Hc.
    cbn [collect first_seen]. rewrite (getitem_field r _ Hr).
    change (field r (lit "href")) with (href r).
    destruct (decide (href r ∈ seen)) as [Hin|Hout]; intros Hc.
    + apply IH; assumption.
    + apply Forall_cons in Hc as [[Ht [_ Hb]] Hc].
      rewrite (getitem_field r _ Ht), (getitem_field r _ Hb).
      rewrite (IH _ _ Hh Hc). rewrite <- app_assoc. reflexivity.
Qed.

Lemma first_seen_distinct (rs : list record) :
  forall seen,
    NoDup (href <$> rs) ->
    (forall x, x ∈ rs -> href x ∉ seen) ->
    first_seen seen rs = rs.
Proof.
  induction rs as [|r rs IH]; intros seen Hnd Hfresh; [reflexivity|].
  rewrite fmap_cons in Hnd. apply NoDup_cons in Hnd as [Hr Hnd].
  cbn [first_seen].
  destruct (decide (href r ∈ seen)) as [Hin|_].
  - exfalso. apply (Hfresh r); [apply elem_of_cons; left; reflexivity | exact Hin].
  - f_equal. apply IH; [exact Hnd|].
    intros x Hx Hin. apply elem_of_union in Hin as [Hin|Hin].
    + apply elem_of_singleton in Hin. apply Hr. rewrite <- Hin.
      apply list_elem_of_fmap_2. exact Hx.
    + apply (Hfresh x); [apply elem_of_cons; right; exact Hx | exact Hin].
Qed.

Lemma escape_no_markup (s : str) :
  Forall (fun c => markup c = false) (Html.escape s).
Proof.
  induction s as [|c s IH]; [constructor|].
  rewrite escape_cons. apply Forall_app. split; [|exact IH].
  unfold Html.escape_char.
  destruct (N.eqb_spec c Html.amp) as [->|Hamp];
    [vm_compute; repeat constructor|].
  destruct (N.eqb_spec c Html.lt) as [->|Hlt];
    [vm_compute; repeat constructor|].
  destruct (N.eqb_spec c Html.gt) as [->|Hgt];
    [vm_compute; repeat constructor|].
  destruct (N.eqb_spec c Html.quot) as [->|Hquot];
    [vm_compute; repeat constructor|].
  destruct (N.eqb_spec c Html.apos) as [->|Hapos];
    [vm_compute; repeat constructor|].
  apply Forall_cons. split; [|constructor]. unfold markup.
  apply N.eqb_neq in Hlt, Hgt, Hquot, Hapos.
  rewrite Hlt, Hgt, Hquot, Hapos. reflexivity.
Qed.

Lemma escape_length_bound (s : str) :
  (length (Html.escape s) <= 6 * length s)%nat.
Proof.
  induction s as [|c s IH]; [cbn; lia|].
  rewrite escape_cons, length_app. cbn [length].
  assert (length (Html.escape_char c) <= 6)%nat; [|lia].
  unfold Html.escape_char.
  repeat (match goal with |- context [if ?b then _ else _] => destruct b end;
          [vm_compute; lia|]).
  cbn. lia.
Qed.

(** X1. Whatever the provider answers, [search_web] returns a text after
    exactly one request and without waiting; it never ends in the
    decorator's [RetryError]. Either nothing is logged, or the one line
    logged is the returned text, which is then an error line. *)
Theorem search_web_one_request (date : str)
    (provider : nat -> str -> result (list record)) (query : str)
    (st : state) :
  exists text st',
    search_web date provider query st = (Returned text, st')
    /\ requests st' = S (requests st)
    /\ slept st' = slept st
    /\ (log st' = log st
        \/ (log st' = log st ++ [lit "ERROR:root:" ++ text]
            /\ exists e, text = lit "Erro na pesquisa: " ++ str_exn e)).
Proof.
  unfold search_web, retry. cbn [Nat.pred retry_from].
  unfold search_web_body, try_except, search_web_try, bind, request,
    search_web_except, logging_error, ret, raise.
  destruct (provider (requests st) (query ++ lit " after:" ++ date))
    as [[|r rs]|e]; cbn [requests slept log].
  - eexists _, _. split; [reflexivity|]. cbn. repeat split. left. reflexivity.
  - destruct (collect (r :: rs) [] ∅) as [blocks|e].
    + eexists _, _. split; [reflexivity|]. cbn. repeat split. left. reflexivity.
    + eexists _, _. split; [reflexivity|]. cbn. repeat split. right.
      split; [reflexivity|]. exists e. reflexivity.
  - eexists _, _. split; [reflexivity|]. cbn. repeat split. right.
    split; [reflexivity|]. exists e. reflexivity.
Qed.

(** X2. When the provider raises, [search_web] returns the line
    [Erro na pesquisa: ] followed by the text of the exception and appends
    that same line to the log, after the one request. *)
Theorem search_web_provider_error (date : str)
    (provider : nat -> str -> result (list record)) (query : str)
    (st : state) (e : exn) :
  provider (requests st) (query ++ lit " after:" ++ date) = Raise e ->
  search_web date provider query st
  = (Returned (lit "Erro na pesquisa: " ++ str_exn e),
     mkState (S (requests st)) (slept st)
       (log st ++ [lit "ERROR:root:" ++ lit "Erro na pesquisa: " ++ str_exn e])).
Proof.
  intros Hp. unfold search_web, retry. cbn [Nat.pred retry_from].
  unfold search_web_body, try_except, search_web_try, bind, request.
  rewrite Hp. reflexivity.
Qed.

Lemma search_web_provider_error_witness :
  fst (search_web Sample.date down (lit "ia") initial)
  = Returned (lit "Erro na pesquisa: " ++ str_exn (Exception (lit "timeout"))).
Proof.
  exact (f_equal fst (search_web_provider_error Sample.date down (lit "ia")
                        initial (Exception (lit "timeout")) eq_refl)).
Defined.

(** X3. A record without a field the loop reads turns the whole output
    into the [KeyError] line, and the blocks collected before it are
    dropped: after complete records, a record without href gives
    ['href']; one with a new url and no title gives ['title']; one with a
    new url and a title but no body gives ['body']. *)
Theorem search_web_missing_field (date : str)
    (provider : nat -> str -> result (list record)) (query : str)
    (st : state) (pre post : list record) (r : record) (key : str) :
  provider (requests st) (query ++ lit " after:" ++ date)
    = Return (pre ++ r :: post) ->
  Forall complete pre ->
  (key = lit "href" /\ r !! lit "href" = None)
  \/ (exists h, r !! lit "href" = Some h /\ (h ∉ href <$> pre)
                /\ ((key = lit "title" /\ r !! lit "title" = None)
                    \/ (key = lit "body" /\ is_Some (r !! lit "title")
                        /\ r !! lit "body" = None))) ->
  search_web date provider query st
  = (Returned (lit "Erro na pesquisa: " ++ lit "'" ++ key ++ lit "'"),
     mkState (S (requests st)) (slept st)
       (log st ++ [lit "ERROR:root:" ++ lit "Erro na pesquisa: "
                   ++ lit "'" ++ key ++ lit "'"])).
Proof.
  intros Hp Hpre Hkey.
  assert (Hcollect : collect (pre ++ r :: post) [] ∅ = Raise (KeyError key)).
  { rewrite (collect_app pre (r :: post) [] ∅ Hpre). cbn [collect].
    unfold getitem.
    destruct Hkey as [[-> Hh]|[h [Hh [Hfresh Hkey]]]].
    - rewrite Hh. reflexivity.
    - rewrite Hh.
      destruct (decide (h ∈ list_to_set (href <$> pre) ∪ (∅ : gset str)))
        as [Hin|_].
      + exfalso. apply Hfresh. apply elem_of_union in Hin as [Hin|Hin].
        * apply elem_of_list_to_set in Hin. exact Hin.
        * apply not_elem_of_empty in Hin. contradiction.
      + destruct Hkey as [[-> Ht]|[-> [[t Ht] Hb]]].
        * rewrite Ht. reflexivity.
        * rewrite Ht, Hb. reflexivity. }
  unfold search_web, retry. cbn [Nat.pred retry_from].
  unfold search_web_body, try_except, search_web_try, bind, request.
  rewrite Hp. destruct (pre ++ r :: post) as [|a l] eqn:Hl.
  - destruct pre; discriminate Hl.
  - rewrite Hcollect. reflexivity.
Qed.

Lemma search_web_missing_field_witness :
  fst (search_web Sample.date urlless (lit "ia") initial)
  = Returned (lit "Erro na pesquisa: " ++ lit "'" ++ lit "href" ++ lit "'").
Proof.
  refine (f_equal fst (search_web_missing_field Sample.date urlless (lit "ia")
            initial [mk_record (lit "A") (lit "http://x") (lit "first")] []
            {[ lit "title" := lit "B" ]} (lit "href") eq_refl _ _)).
  - all_complete.
  - left. split; [reflexivity | vm_compute; reflexivity].
Defined.

(** X4. A record whose url was already seen is skipped before its title
    and body are read: when every record has an href and the first record
    of each url is complete, the output is the join of the blocks of those
    first records, whatever the repeated records lack. *)
Theorem search_web_skips_duplicates_unread (date : str)
    (provider : nat -> str -> result (list record)) (query : str)
    (st : state) (r : record) (rs : list record) :
  provider (requests st) (query ++ lit " after:" ++ date) = Return (r :: rs) ->
  Forall has_href (r :: rs) ->
  Forall complete (first_seen ∅ (r :: rs)) ->
  search_web date provider query st
  = (Returned (join (nl ++ nl) (block <$> first_seen ∅ (r :: rs))),
     mkState (S (requests st)) (slept st) (log st)).
Proof.
  intros Hp Hh Hc. apply search_web_of_try.
  unfold search_web_try, bind, request. rewrite Hp.
  rewrite (collect_first_seen_weak (r :: rs) [] ∅ Hh Hc). rewrite app_nil_l.
  cbn [first_seen]. destruct (decide (href r ∈ (∅ : gset str))) as [Hin|_].
  - apply not_elem_of_empty in Hin. contradiction.
  - reflexivity.
Qed.

Lemma search_web_skips_duplicates_unread_witness :
  fst (search_web Sample.date repeating (lit "ia") initial)
  = Returned (join (nl ++ nl) (block <$> first_seen ∅ bare_duplicate))
  /\ length (first_seen ∅ bare_duplicate) = 2%nat.
Proof.
  split; [|vm_compute; reflexivity].
  refine (f_equal fst (search_web_skips_duplicates_unread Sample.date repeating
            (lit "ia") initial _ _ eq_refl _ _)).
  - repeat (apply Forall_cons; split; [vm_compute; eexists; reflexivity|]).
    apply Forall_nil_2.
  - vm_compute first_seen. all_complete.
Defined.

(** X5. When the urls of the complete records are pairwise distinct,
    nothing is dropped: the output is the join of the blocks of all the
    records, in provider order. *)
Theorem search_web_distinct_urls (date : str)
    (provider : nat -> str -> result (list record)) (query : str)
    (st : state) (r : record) (rs : list record) :
  provider (requests st) (query ++ lit " after:" ++ date) = Return (r :: rs) ->
  Forall complete (r :: rs) ->
  NoDup (href <$> r :: rs) ->
  search_web date provider query st
  = (Returned (join (nl ++ nl) (block <$> r :: rs)),
     mkState (S (requests st)) (slept st) (log st)).
Proof.
  intros Hp Hc Hnd.
  destruct (search_web_blocks date provider query st r rs Hp Hc) as [_ ->].
  rewrite (first_seen_distinct (r :: rs) ∅ Hnd); [reflexivity|].
  intros x _. apply not_elem_of_empty.
Qed.

Lemma search_web_distinct_urls_witness :
  fst (search_web Sample.date distinct (lit "ia") initial)
  = Returned (join (nl ++ nl) (block <$> two_distinct)).
Proof.
  refine (f_equal fst (search_web_distinct_urls Sample.date distinct (lit "ia")
            initial _ _ eq_refl _ _)).
  - all_complete.
  - vm_compute. repeat (apply NoDup_cons; split;
      [rewrite ?not_elem_of_cons; repeat split;
       try (intros H; discriminate H); apply not_elem_of_nil|]).
    apply NoDup_nil_2.
Defined.

(** X6. In a block, a character that opens or closes markup or a quoted
    value can only come from the url: the title and the description are
    escaped and the labels contain none. *)
Theorem news_entry_markup_from_url (title href body : str) (c : N) :
  markup c = true -> c ∈ news_entry title href body -> c ∈ href.
Proof.
  intros Hm Hin. unfold news_entry in Hin.
  assert (Hesc : forall s, c ∈ Html.escape s -> False).
  { intros s Hs. pose proof (escape_no_markup s) as Hf.
    rewrite Forall_forall in Hf. rewrite (Hf c Hs) in Hm. discriminate Hm. }
  assert (Hlit : forall l, Forall (fun x => markup x = false) l -> c ∈ l -> False).
  { intros l Hf Hl. rewrite Forall_forall in Hf. rewrite (Hf c Hl) in Hm.
    discriminate Hm. }
  repeat (apply elem_of_app in Hin as [Hin|Hin]);
    first [ exact Hin
          | exfalso; apply (Hesc _ Hin)
          | exfalso; eapply Hlit; [|exact Hin]; vm_compute; repeat constructor ].
Qed.

Lemma news_entry_markup_from_url_witness :
  60 ∈ lit "http://x/<y>".
Proof.
  apply (news_entry_markup_from_url (lit "a < b") (lit "http://x/<y>")
           (lit "<i>d</i>") 60).
  - reflexivity.
  - vm_compute. repeat first [apply list_elem_of_here | apply list_elem_of_further].
Defined.

(** X7. An accepted topic holds no character that opens or closes markup
    or a quoted value, and its length lies between 5 and 3000: escaping
    never shortens the trimmed input and makes at most six characters of
    one. *)
Theorem validate_input_output_safe (query clean : str) :
  validate_input query = Return clean ->
  Forall (fun c => markup c = false) clean
  /\ (5 <= length clean <= 6 * MAX_QUERY_LENGTH)%nat.
Proof.
  unfold validate_input.
  destruct (negb (truthy query) || (length (strip query) <? 5)%nat) eqn:Hshort;
    [discriminate|].
  destruct (Nat.ltb_spec MAX_QUERY_LENGTH (length query)) as [|Hfit];
    [discriminate|].
  intros [= <-]. split; [apply escape_no_markup|].
  apply orb_false_iff in Hshort as [_ Hlen]. apply Nat.ltb_ge in Hlen.
  pose proof (escape_length (strip query)).
  pose proof (escape_length_bound (strip query)).
  pose proof (strip_length query). lia.
Qed.

Lemma validate_input_output_safe_witness :
  Forall (fun c => markup c = false) (lit "a&lt;b &amp; c").
Proof.
  apply (validate_input_output_safe (lit "  a<b & c  ") (lit "a&lt;b &amp; c")).
  vm_compute. reflexivity.
Defined.

End SearchMore.

(** ** [process_research] and [main]: failures, the cache, the page *)

Section Runs.

Import App Spec More.
Local Open Scope app_scope.

Ltac state_step :=
  cbn [trace set_trace set_log log cache session_state page run_tools
       functions researcher_agent writer_agent].

Implicit Types (client_run : nat -> Agent -> list Message -> result (list Message))
  (client_tools : nat -> Agent -> list Message -> list tool_call)
  (client_stream : nat -> Agent -> list Message -> list chunk * option exn).

(** X8. A topic that [validate_input] rejects never reaches the pipeline:
    no invocation is made, nothing is logged or cached, and the Article is
    kept. A non-empty rejected topic shows the validation message; the
    empty topic is not even validated, and the run is the one of a page
    load without the button. *)
Theorem rejected_topic_stops_run client_run client_tools client_stream (now : N)
    (query : str) (e : exn) (st : state) :
  validate_input query = Raise e ->
  trace (main client_run client_tools client_stream now false true query st) = trace st
  /\ log (main client_run client_tools client_stream now false true query st) = log st
  /\ cache (main client_run client_tools client_stream now false true query st) = cache st
  /\ article (main client_run client_tools client_stream now false true query st)
     = article st
  /\ (truthy query = true ->
      Error (lit "Erro: " ++ str_exn e)
        ∈ page (main client_run client_tools client_stream now false true query st))
  /\ (query = [] ->
      main client_run client_tools client_stream now false true query st
      = main client_run client_tools client_stream now false false query st).
Proof.
  intros Hval.
  destruct (init_article_frame st) as [Ht [Hl [Hc Hp]]].
  unfold main, render. cbn [andb].
  destruct (truthy query) eqn:Hq.
  - unfold submit, try_except, submit_try, bind, lift. rewrite Hval.
    unfold act. cbn [snd].
    destruct (show_article_keeps
                (show (Error (lit "Erro: " ++ str_exn e)) (init_article st)))
      as [Kt [Kc Ka]].
    destruct (show_article_frame
                (show (Error (lit "Erro: " ++ str_exn e)) (init_article st)))
      as [Ks [Kl [more Kp]]].
    rewrite Kt, Kl, Kc, Ka. cbn [trace log cache show].
    split; [exact Ht|]. split; [exact Hl|]. split; [exact Hc|].
    split; [|split].
    + unfold article at 1. cbn [session_state show].
      apply article_init_article.
    + intros _. rewrite Kp. cbn [page show]. apply elem_of_app. left.
      apply elem_of_app. right. apply list_elem_of_singleton. reflexivity.
    + intros ->. discriminate Hq.
  - destruct (show_article_keeps (init_article st)) as [Kt [Kc Ka]].
    destruct (show_article_frame (init_article st)) as [Ks [Kl _]].
    rewrite Kt, Kl, Kc, Ka.
    split; [exact Ht|]. split; [exact Hl|]. split; [exact Hc|].
    split; [apply article_init_article|]. split; [discriminate|].
    intros _. reflexivity.
Qed.

Lemma rejected_topic_stops_run_witness :
  trace (main Sample.numbered Sample.no_tools Sample.ola_stream 0 false true (lit "IA") initial)
  = trace initial
  /\ Error (lit "Erro: " ++ str_exn (ValueError too_short_msg))
       ∈ page (main Sample.numbered Sample.no_tools Sample.ola_stream 0 false true (lit "IA")
                 initial).
Proof.
  destruct (rejected_topic_stops_run Sample.numbered Sample.no_tools Sample.ola_stream 0
              (lit "IA") (ValueError too_short_msg) initial)
    as [Ht [_ [_ [_ [He _]]]]].
  - vm_compute. reflexivity.
  - split; [exact Ht | exact (He eq_refl)].
Defined.

(** X9. The clear button empties the Article whatever else is pressed or
    typed: the session state holds the empty Article only, no invocation
    is made, and the log and the cache of drafts are kept. *)
Theorem clear_resets_article client_run client_tools client_stream (now : N)
    (submit_btn : bool) (query : str) (st : state) :
  session_state (main client_run client_tools client_stream now true submit_btn query st)
  = {[ article_key := [] ]}
  /\ article (main client_run client_tools client_stream now true submit_btn query st) = []
  /\ trace (main client_run client_tools client_stream now true submit_btn query st)
     = trace st
  /\ log (main client_run client_tools client_stream now true submit_btn query st) = log st
  /\ cache (main client_run client_tools client_stream now true submit_btn query st)
     = cache st
  /\ page (main client_run client_tools client_stream now true submit_btn query st)
     = page st.
Proof.
  unfold main, render. cbn [andb].
  assert (Hinit : init_article (set_session_state ∅ st)
                  = set_session_state {[ article_key := [] ]} st).
  { unfold init_article. cbn [session_state set_session_state].
    rewrite lookup_empty. destruct st. reflexivity. }
  rewrite Hinit. unfold show_article, article.
  cbn [session_state set_session_state]. rewrite lookup_singleton_eq.
  cbn. repeat split.
Qed.

(** X10. When [process_research] raises, nothing is cached: the cache, the
    session state and the page are as before, the error line of
    [process_research] is the last line of the log, preceded only by error
    lines the search tool wrote during the run, between one and three
    invocations were made, the first being the search stage, and the
    exception is the one of the undecorated function. *)
Theorem process_research_failure_not_cached client_run client_tools (now : N)
    (query : str) (e : exn) (st st' : state) :
  process_research client_run client_tools now query st = (Raise e, st') ->
  process_research_body client_run client_tools query st = (Raise e, st')
  /\ cache st' = cache st
  /\ session_state st' = session_state st
  /\ page st' = page st
  /\ (exists lines,
        log st' = log st ++ lines ++ [processing_error_line e]
        /\ Forall search_error_line lines)
  /\ exists more,
       trace st'
       = trace st
         ++ mkInvocation web_search_agent
              [user (lit "Pesquise sobre: " ++ query)] false :: more
       /\ (length more <= 2)%nat.
Proof.
  intros Hrun.
  pose proof (process_research_frame client_run client_tools now query st)
    as Hframe.
  rewrite Hrun in Hframe. destruct Hframe as [_ [_ [_ [_ Hbody]]]].
  split; [exact Hbody|].
  destruct (process_research_body_failure client_run client_tools query e st st'
              Hbody) as [Hl [Hc [Hs [Hp Ht]]]].
  split; [exact Hc|]. split; [exact Hs|]. split; [exact Hp|].
  split; [exact Hl | exact Ht].
Qed.

Lemma process_research_failure_not_cached_witness :
  cache (snd (process_research Sample.analysis_down one_failed_search 0
                Sample.topic initial))
  = cache initial
  /\ length (log (snd (process_research Sample.analysis_down one_failed_search
                         0 Sample.topic initial))) = 2%nat.
Proof.
  destruct (process_research_failure_not_cached Sample.analysis_down
              one_failed_search 0 Sample.topic
              (Exception (lit "model offline")) initial
              (snd (process_research Sample.analysis_down one_failed_search 0
                      Sample.topic initial)))
    as [_ [Hc _]].
  - vm_compute. reflexivity.
  - split; [exact Hc | vm_compute; reflexivity].
Defined.

(** X11. The cache is keyed by the topic: whatever a call for one topic
    does, the entries of every other topic are left as they were. *)
Theorem process_research_keeps_other_topics client_run client_tools (now : N)
    (query other : str) (r : result str) (st st' : state) :
  process_research client_run client_tools now query st = (r, st') ->
  other <> query ->
  cache st' !! other = cache st !! other.
Proof.
  unfold process_research, cache_data. intros Hrun Hne.
  assert (Hfresh :
    match process_research_body client_run client_tools query st with
    | (Return v, s) => (Return v, set_cache (<[query := (v, now)]> (cache s)) s)
    | (Raise e, s) => (Raise e, s)
    end = (r, st') -> cache st' !! other = cache st !! other).
  { destruct (process_research_body client_run client_tools query st)
      as [[v|e] s] eqn:Hb.
    - apply process_research_body_success in Hb as [_ [_ [Hc _]]].
      intros [= <- <-]. cbn [cache set_cache].
      rewrite lookup_insert_ne by congruence. rewrite Hc. reflexivity.
    - apply process_research_body_failure in Hb as [_ [Hc _]].
      intros [= <- <-]. rewrite Hc. reflexivity. }
  destruct (cache st !! query) as [[v stored]|]; [|exact (Hfresh Hrun)].
  destruct (now <? stored + CACHE_TIME); [|exact (Hfresh Hrun)].
  injection Hrun as _ <-. reflexivity.
Qed.

Lemma process_research_keeps_other_topics_witness :
  cache (snd (process_research Sample.numbered Sample.no_tools 100 Sample.topic initial))
    !! lit "outro tema"
  = None.
Proof.
  rewrite (process_research_keeps_other_topics Sample.numbered Sample.no_tools 100 Sample.topic
             (lit "outro tema")
             (fst (process_research Sample.numbered Sample.no_tools 100 Sample.topic initial))
             initial
             (snd (process_research Sample.numbered Sample.no_tools 100 Sample.topic initial))).
  - reflexivity.
  - apply surjective_pairing.
  - intros H. vm_compute in H. discriminate H.
Defined.

(** X12. In a run of the undecorated function that returns, each stage
    receives the text of the last message of the stage before it: the
    search stage the topic, the analysis stage the search text, the draft
    stage the analysis text; the draft returned is the text of the last
    message of the draft stage, and the three invocations are consecutive.
    The cache, the session state and the page are untouched, and the log
    is the one the tool calls of the search stage leave: it can only have
    gained error lines of the search tool. *)
Theorem process_research_body_chain client_run client_tools
    (query draft : str) (st st' : state) :
  process_research_body client_run client_tools query st = (Return draft, st') ->
  exists r1 r2 r3 raw_data clean_data,
    client_run (length (trace st)) web_search_agent
      [user (lit "Pesquise sobre: " ++ query)] = Return r1
    /\ last_content r1 = Return raw_data
    /\ client_run (length (trace st) + 1)%nat researcher_agent
         [user (lit "Analise estes dados:" ++ nl ++ raw_data)] = Return r2
    /\ last_content r2 = Return clean_data
    /\ client_run (length (trace st) + 1 + 1)%nat writer_agent
         [user (lit "Crie um artigo usando:" ++ nl ++ clean_data)] = Return r3
    /\ last_content r3 = Return draft
    /\ trace st'
       = trace st
         ++ [mkInvocation web_search_agent
               [user (lit "Pesquise sobre: " ++ query)] false;
             mkInvocation researcher_agent
               [user (lit "Analise estes dados:" ++ nl ++ raw_data)] false;
             mkInvocation writer_agent
               [user (lit "Crie um artigo usando:" ++ nl ++ clean_data)] false]
    /\ cache st' = cache st
    /\ session_state st' = session_state st
    /\ page st' = page st
    /\ log st'
       = run_tools (functions web_search_agent)
           (client_tools (length (trace st)) web_search_agent
              [user (lit "Pesquise sobre: " ++ query)]) (log st)
    /\ exists lines,
         log st' = log st ++ lines /\ Forall search_error_line lines.
Proof.
  unfold process_research_body, try_except, process_research_try, bind, run,
    lift, debug_step, DEBUG_MODE, ret, logging_error, act, raise.
  destruct (client_run (length (trace st)) web_search_agent
              [user (lit "Pesquise sobre: " ++ query)]) as [r1|e1] eqn:H1;
    [|discriminate].
  state_step.
  destruct (last_content r1) as [raw|e] eqn:L1; [|discriminate].
  rewrite length_app. cbn [length].
  destruct (client_run (length (trace st) + 1)%nat researcher_agent
              [user (lit "Analise estes dados:" ++ nl ++ raw)])
    as [r2|e2] eqn:H2; [|discriminate].
  state_step.
  destruct (last_content r2) as [clean|e] eqn:L2; [|discriminate].
  rewrite !length_app. cbn [length].
  destruct (client_run (length (trace st) + 1 + 1)%nat writer_agent
              [user (lit "Crie um artigo usando:" ++ nl ++ clean)])
    as [r3|e3] eqn:H3; [|discriminate].
  state_step.
  destruct (last_content r3) as [d|e] eqn:L3; [|discriminate].
  intros H. apply pair_equal_spec in H as [Hd <-]. injection Hd as <-.
  exists r1, r2, r3, raw, clean.
  cbn [trace log cache session_state page].
  repeat (split; [first [assumption | reflexivity]|]).
  split; [rewrite <- !app_assoc; reflexivity|].
  repeat (split; [reflexivity|]).
  apply run_tools_extends.
Qed.

Lemma process_research_body_chain_witness :
  exists r1 r2 r3,
    Sample.numbered 0 web_search_agent
      [user (lit "Pesquise sobre: " ++ Sample.topic)] = Return r1
    /\ last_content r3 = Return (lit "r2")
    /\ Sample.numbered (length (trace initial) + 1)%nat researcher_agent
         [user (lit "Analise estes dados:" ++ nl ++ lit "r0")] = Return r2.
Proof.
  destruct (process_research_body_chain Sample.numbered one_failed_search
              Sample.topic (lit "r2") initial
              (snd (process_research_body Sample.numbered one_failed_search
                      Sample.topic initial)))
    as [r1 [r2 [r3 [raw [clean [H1 [L1 [H2 [L2 [H3 [L3 _]]]]]]]]]]].
  - vm_compute. reflexivity.
  - exists r1, r2, r3. split; [exact H1|]. split; [exact L3|].
    assert (Hraw : raw = lit "r0").
    { cbn in H1. injection H1 as <-. vm_compute in L1. injection L1 as <-.
      vm_compute. reflexivity. }
    rewrite <- Hraw. exact H2.
Defined.

(** X13. When the search stage raises, or answers with no message at all
    (an [IndexError] on the last message), the pipeline stops there: the
    exception is logged, after whatever the tool calls of that stage
    logged, and re-raised after that single invocation; neither the
    analysis nor the draft stage is invoked. *)
Theorem search_stage_failure_stops_pipeline client_run client_tools
    (query : str) (e : exn) (st : state) :
  client_run (length (trace st)) web_search_agent
    [user (lit "Pesquise sobre: " ++ query)] = Raise e
  \/ (client_run (length (trace st)) web_search_agent
        [user (lit "Pesquise sobre: " ++ query)] = Return []
      /\ e = IndexError (lit "list index out of range")) ->
  process_research_body client_run client_tools query st
  = (Raise e,
     mkState
       (trace st
        ++ [mkInvocation web_search_agent
              [user (lit "Pesquise sobre: " ++ query)] false])
       (run_tools (functions web_search_agent)
          (client_tools (length (trace st)) web_search_agent
             [user (lit "Pesquise sobre: " ++ query)]) (log st)
        ++ [processing_error_line e])
       (cache st) (session_state st) (page st)).
Proof.
  unfold process_research_body, try_except, process_research_try, bind, run,
    lift, debug_step, DEBUG_MODE, ret, logging_error, act, raise.
  intros [H|[H ->]]; rewrite H; reflexivity.
Qed.

Lemma search_stage_failure_stops_pipeline_witness :
  fst (process_research_body speechless one_failed_search Sample.topic initial)
  = Raise (IndexError (lit "list index out of range"))
  /\ length (trace (snd (process_research_body speechless one_failed_search
                           Sample.topic initial))) = 1%nat
  /\ length (log (snd (process_research_body speechless one_failed_search
                         Sample.topic initial))) = 2%nat.
Proof.
  rewrite (search_stage_failure_stops_pipeline speechless one_failed_search
             Sample.topic (IndexError (lit "list index out of range")) initial).
  - split; [reflexivity|]. split; [reflexivity|]. vm_compute. reflexivity.
  - right. split; reflexivity.
Defined.

(** X14. A run whose topic has a live cache entry invokes the proofreader
    and nothing else: the trace grows by the one streaming invocation on
    the cached draft, whatever the stream then does, and the log and the
    cache are left as they were. *)
Theorem cached_run_invokes_only_proofreader client_run client_tools client_stream
    (now stored : N) (query clean draft : str) (st : state) :
  validate_input query = Return clean ->
  cache st !! clean = Some (draft, stored) ->
  now < stored + CACHE_TIME ->
  trace (main client_run client_tools client_stream now false true query st)
  = trace st
    ++ [mkInvocation proofreader_agent
          [user (lit "Revise:" ++ nl ++ draft)] true]
  /\ log (main client_run client_tools client_stream now false true query st) = log st
  /\ cache (main client_run client_tools client_stream now false true query st) = cache st.
Proof.
  intros Hval Hc Hlive.
  assert (Hq : truthy query = true).
  { unfold validate_input in Hval. destruct (truthy query); [reflexivity|].
    discriminate Hval. }
  destruct (init_article_frame st) as [It [Il [Ic Ip]]].
  assert (Hc' : cache (show (Write (lit "🔍 Realizando pesquisa web..."))
                         (init_article st)) !! clean = Some (draft, stored)).
  { cbn [cache show]. rewrite Ic. exact Hc. }
  pose proof (process_research_hit client_run client_tools now stored clean draft _ Hc' Hlive)
    as Hres.
  destruct (submit_after_research client_run client_tools client_stream now query clean
              draft (init_article st) _ Hval Hres) as [r [s2 [Hp Hsub]]].
  destruct (proofread_frame client_tools client_stream draft
              (show (Write (lit "✍️ Gerando artigo em tempo real..."))
                 (show (Write (lit "🔍 Realizando pesquisa web..."))
                    (init_article st))))
    as [r' [s2' [Hp' [Ft [Fl [Fc _]]]]]].
  rewrite Hp in Hp'. injection Hp' as <- <-.
  cbn [trace log cache show] in Ft, Fl, Fc.
  unfold main, render. rewrite Hq. cbn [andb]. rewrite Hsub. cbn [snd].
  assert (Hfinal : forall s,
            trace s = trace s2 -> log s = log s2 -> cache s = cache s2 ->
            trace (show_article s)
            = trace st
              ++ [mkInvocation proofreader_agent
                    [user (lit "Revise:" ++ nl ++ draft)] true]
            /\ log (show_article s) = log st
            /\ cache (show_article s) = cache st).
  { intros s Ht Hl Hcs.
    destruct (show_article_keeps s) as [Kt [Kc _]].
    destruct (show_article_frame s) as [_ [Kl _]].
    rewrite Kt, Kl, Kc, Ht, Hl, Hcs, Ft, Fl, Fc, It, Il, Ic.
    repeat split. }
  destruct r; apply Hfinal; reflexivity.
Qed.

Lemma cached_run_invokes_only_proofreader_witness :
  length (trace (main Sample.numbered Sample.no_tools Sample.ola_stream 200 false true
                   Sample.topic
                   (snd (process_research Sample.numbered Sample.no_tools 100 Sample.topic
                           initial))))
  = 4%nat.
Proof.
  destruct (cached_run_invokes_only_proofreader Sample.numbered Sample.no_tools
              Sample.ola_stream 200 100 Sample.topic Sample.topic (lit "r2")
              (snd (process_research Sample.numbered Sample.no_tools 100 Sample.topic initial)))
    as [Ht _].
  - vm_compute. reflexivity.
  - vm_compute. reflexivity.
  - vm_compute. reflexivity.
  - rewrite Ht, length_app. vm_compute. reflexivity.
Defined.

(** X15. A run that goes through replaces the Article wholesale: whatever
    the Article was, it becomes the concatenation of the streamed texts
    (the empty Article when the stream carries no text); the completion
    notice is shown, the proofreading invocation is the last of the trace,
    and [main] logs nothing: the log is the one [process_research] left,
    which can only have gained error lines of the search tool. *)
Theorem successful_run_replaces_article client_run client_tools client_stream
    (now : N) (query clean draft : str) (chunks : list chunk)
    (st s1 : state) :
  validate_input query = Return clean ->
  process_research client_run client_tools now clean
    (show (Write (lit "🔍 Realizando pesquisa web...")) (init_article st))
    = (Return draft, s1) ->
  client_stream (length (trace s1)) proofreader_agent
    [user (lit "Revise:" ++ nl ++ draft)] = (chunks, None) ->
  article (main client_run client_tools client_stream now false true query st)
  = concat (texts chunks)
  /\ log (main client_run client_tools client_stream now false true query st)
     = log s1
  /\ (exists lines,
        log (main client_run client_tools client_stream now false true query st)
        = log st ++ lines
        /\ Forall search_error_line lines)
  /\ StatusComplete (lit "Artigo completo! ✅")
       ∈ page (main client_run client_tools client_stream now false true
                 query st)
  /\ trace (main client_run client_tools client_stream now false true query st)
     = trace s1
       ++ [mkInvocation proofreader_agent
             [user (lit "Revise:" ++ nl ++ draft)] true].
Proof.
  intros Hval Hres Hstream.
  assert (Hq : truthy query = true).
  { unfold validate_input in Hval. destruct (truthy query); [reflexivity|].
    discriminate Hval. }
  destruct (init_article_frame st) as [It [Il [Ic Ip]]].
  pose proof (process_research_frame client_run client_tools now clean
                (show (Write (lit "🔍 Realizando pesquisa web..."))
                   (init_article st))) as Hframe.
  rewrite Hres in Hframe. destruct Hframe as [[lines [Rl Rlines]] _].
  cbn [log show] in Rl.
  destruct (submit_after_research client_run client_tools client_stream now
              query clean draft (init_article st) s1 Hval Hres)
    as [r [s2 [Hp Hsub]]].
  destruct (proofread_frame client_tools client_stream draft
              (show (Write (lit "✍️ Gerando artigo em tempo real...")) s1))
    as [r' [s2' [Hp' [Ft [Fl [_ Fs]]]]]].
  rewrite Hp in Hp'. injection Hp' as <- <-.
  cbn [trace log session_state show] in Ft, Fl, Fs.
  rewrite Hstream in Fs. cbn [fst snd] in Fs. destruct Fs as [-> Fs].
  unfold main, render. rewrite Hq. cbn [andb]. rewrite Hsub. cbn [snd].
  destruct (show_article_keeps
              (show (StatusComplete (lit "Artigo completo! ✅")) s2))
    as [Kt [_ Ka]].
  destruct (show_article_frame
              (show (StatusComplete (lit "Artigo completo! ✅")) s2))
    as [_ [Kl [more Kp]]].
  rewrite Ka, Kl, Kt, Kp. cbn [trace log page show].
  split; [|split; [|split; [|split]]].
  - unfold article. cbn [session_state show]. rewrite Fs, lookup_insert_eq.
    reflexivity.
  - exact Fl.
  - exists lines. rewrite Fl, Rl, Il. split; [reflexivity | exact Rlines].
  - apply elem_of_app. left. apply elem_of_app. right.
    apply list_elem_of_singleton. reflexivity.
  - exact Ft.
Qed.

Lemma successful_run_replaces_article_witness :
  article (main Sample.numbered one_failed_search blank_stream 0 false true
             Sample.topic
             (set_session_state {[ article_key := lit "antigo" ]} initial))
  = concat (texts (fst (blank_stream 0 proofreader_agent [])))
  /\ concat (texts (fst (blank_stream 0 proofreader_agent []))) = []
  /\ length (log (main Sample.numbered one_failed_search blank_stream 0 false
                    true Sample.topic
                    (set_session_state {[ article_key := lit "antigo" ]}
                       initial))) = 1%nat.
Proof.
  split; [|split; vm_compute; reflexivity].
  refine (proj1 (successful_run_replaces_article Sample.numbered
            one_failed_search blank_stream 0
            Sample.topic Sample.topic (lit "r2") _
            (set_session_state {[ article_key := lit "antigo" ]} initial)
            (snd (process_research Sample.numbered one_failed_search 0
                    Sample.topic
                    (show (Write (lit "🔍 Realizando pesquisa web..."))
                       (init_article
                          (set_session_state {[ article_key := lit "antigo" ]}
                             initial)))))
            _ _ _)).
  - vm_compute. reflexivity.
  - vm_compute. reflexivity.
  - reflexivity.
Defined.

(** X16. After every execution of the script, whatever was pressed and
    whatever the stages did, a non-empty Article is what the page ends
    with: it is rendered as markdown and the last element is the download
    button carrying exactly the Article, under the name [artigo_llm.md] and
    the type [text/markdown]. *)
Theorem download_matches_article client_run client_tools client_stream (now : N)
    (clear_btn submit_btn : bool) (query : str) (st : state) :
  article (main client_run client_tools client_stream now clear_btn submit_btn query st)
    <> [] ->
  last (page (main client_run client_tools client_stream now clear_btn submit_btn query st))
  = Some (DownloadButton
            (article (main client_run client_tools client_stream now clear_btn submit_btn
                        query st))
            (lit "artigo_llm.md") (lit "text/markdown"))
  /\ Markdown (article (main client_run client_tools client_stream now clear_btn submit_btn
                          query st))
       ∈ page (main client_run client_tools client_stream now clear_btn submit_btn query st).
Proof.
  assert (Hgen : forall s,
            article (show_article s) <> [] ->
            last (page (show_article s))
            = Some (DownloadButton (article (show_article s))
                      (lit "artigo_llm.md") (lit "text/markdown"))
            /\ Markdown (article (show_article s)) ∈ page (show_article s)).
  { intros s. destruct (show_article_keeps s) as [_ [_ Ka]]. rewrite Ka.
    intros Hne. rewrite (show_article_button s Hne). split.
    - change [Subheader (lit "Seu Artigo Pronto"); Markdown (article s);
              DownloadButton (article s) (lit "artigo_llm.md")
                (lit "text/markdown")]
        with ([Subheader (lit "Seu Artigo Pronto"); Markdown (article s)]
              ++ [DownloadButton (article s) (lit "artigo_llm.md")
                    (lit "text/markdown")]).
      rewrite app_assoc. apply last_snoc.
    - apply elem_of_app. right. apply elem_of_cons. right.
      apply elem_of_cons. left. reflexivity. }
  unfold main, render. destruct clear_btn; apply Hgen.
Qed.

Lemma download_matches_article_witness :
  last (page (main Sample.numbered Sample.no_tools Sample.ola_stream 0 false true Sample.topic
                initial))
  = Some (DownloadButton
            (article (main Sample.numbered Sample.no_tools Sample.ola_stream 0 false true
                        Sample.topic initial))
            (lit "artigo_llm.md") (lit "text/markdown")).
Proof.
  refine (proj1 (download_matches_article Sample.numbered Sample.no_tools Sample.ola_stream 0
                   false true Sample.topic initial _)).
  vm_compute. discriminate.
Defined.

End Runs.
